(** * tmonitor: the webhook receiver of TwitterAPI.io tweet batches

    A shallow embedding of [monitor.py] (the standalone Flask server) and of
    [api/webhook.py] (the serverless variant of the same handler), and the
    properties of its authentication check, of the payload normaliser, of the
    daily file store and of the [/webhook] route.

    The two files share almost all of their text.  The embedding follows
    them function by function and takes the deployment as a parameter where
    the two differ: the [not API_KEY] guard of [verify_webhook_request], the
    [processed_at] field of a record, the call of [save_tweets_to_file] and
    the [timestamp] field of the responses. *)

From Stdlib Require Import ZArith String List.
From Stdlib Require Import Floats.SpecFloat.
From stdpp Require Import gmap strings list pretty.

Set Warnings "-register-all".
Local Open Scope string_scope.
Local Open Scope list_scope.

(** ** Python values

    Everything the handlers touch comes out of [json.loads] or is built from
    such values by dict and list literals, so a Python value is a JSON value.
    A [dict] is kept as the list of its items in insertion order; its keys are
    strings. *)

Inductive pyval : Type :=
| PNone
| PBool (b : bool)
| PInt (z : Z)
| PFloat (f : spec_float)
| PStr (s : string)
| PList (l : list pyval)
| PDict (d : list (string * pyval)).

(** The exceptions the modelled code can meet; all of them derive from
    [Exception]. *)
Inductive exn : Type :=
| AttributeError
| TypeError
| KeyError
| JSONDecodeError
| HTTPException.

Inductive result (A : Type) : Type :=
| Ok (a : A)
| Raise (e : exn).
Arguments Ok {A} a.
Arguments Raise {A} e.

(** [bool(o)] *)
Definition truthy (o : pyval) : bool :=
  match o with
  | PNone => false
  | PBool b => b
  | PInt z => negb (Z.eqb z 0)
  | PFloat (S754_zero _) => false
  | PFloat _ => true
  | PStr s => negb (String.eqb s "")
  | PList l => match l with [] => false | _ => true end
  | PDict d => match d with [] => false | _ => true end
  end.

(** [d[key]] on the items of a dict, [None] where Python raises [KeyError]. *)
Fixpoint dict_lookup (key : string) (d : list (string * pyval)) : option pyval :=
  match d with
  | [] => None
  | (k, v) :: d' => if String.eqb k key then Some v else dict_lookup key d'
  end.

Definition dict_get (key : string) (d : list (string * pyval)) (default : pyval) : pyval :=
  match dict_lookup key d with
  | Some v => v
  | None => default
  end.

(** [o.get(key, default)]: only a dict has the method. *)
Definition py_get (o : pyval) (key : string) (default : pyval) : result pyval :=
  match o with
  | PDict d => Ok (dict_get key d default)
  | _ => Raise AttributeError
  end.

(** [o[key]] with a string key. *)
Definition py_getitem (o : pyval) (key : string) : result pyval :=
  match o with
  | PDict d => match dict_lookup key d with Some v => Ok v | None => Raise KeyError end
  | _ => Raise TypeError
  end.

(** The characters of a [str], as the one-character strings Python yields. *)
Fixpoint chars (s : string) : list pyval :=
  match s with
  | EmptyString => []
  | String c s' => PStr (String c EmptyString) :: chars s'
  end.

(** [len(o)] *)
Definition py_len (o : pyval) : result nat :=
  match o with
  | PStr s => Ok (String.length s)
  | PList l => Ok (length l)
  | PDict d => Ok (length d)
  | _ => Raise TypeError
  end.

(** The items a [for x in o] loop runs over. *)
Definition py_iter (o : pyval) : result (list pyval) :=
  match o with
  | PStr s => Ok (chars s)
  | PList l => Ok l
  | PDict d => Ok (map (fun kv => PStr (fst kv)) d)
  | _ => Raise TypeError
  end.

Fixpoint str_take (n : nat) (s : string) : string :=
  match n, s with
  | S n', String c s' => String c (str_take n' s')
  | _, _ => EmptyString
  end.

(** [o[:n]]: a prefix of a [str] or of a [list]; nothing else can be sliced. *)
Definition py_slice_to (n : nat) (o : pyval) : result pyval :=
  match o with
  | PStr s => Ok (PStr (str_take n s))
  | PList l => Ok (PList (take n l))
  | _ => Raise TypeError
  end.

(** ** The world of a handler

    [datetime.now()] is read from a clock that the handlers do not control:
    the world holds the readings still to come and the number of readings
    taken so far.  Of a reading only its two renderings are used. *)

Record datetime : Type := {
  strftime_Ymd : string;   (* .strftime('%Y%m%d') *)
  isoformat : string       (* .isoformat() *)
}.

(** What [json.load] finds in a file. *)
Inductive file : Type :=
| JsonFile (v : pyval)     (* the text of the JSON value [v] *)
| NotJson.                 (* anything [json.load] rejects *)

Inductive level : Type := INFO | WARNING | ERROR.

(** The calls of [logger], with the values their f-strings interpolate. *)
Inductive message : Type :=
| MsgProcessing (n : nat) (rule_tag rule_id : pyval)
| MsgTweet (username text : pyval)
| MsgErrorProcessing (e : exn)
| MsgSaved (n : nat) (filename : string)
| MsgErrorSaving (e : exn)
| MsgUnauthorized (reason : string)
| MsgNoJson
| MsgReceivedValid
| MsgSuccessfullyProcessed (n : nat)
| MsgNoTweets
| MsgErrorHandler (e : exn).

Record world : Type := {
  files : gmap string file;
  log : list (level * message);
  clock : nat -> datetime;
  ticks : nat
}.

(** ** State and exceptions *)

Definition M (A : Type) : Type := world -> result A * world.

Definition ret {A} (a : A) : M A := fun w => (Ok a, w).

Definition bind {A B} (m : M A) (k : A -> M B) : M B :=
  fun w =>
    match m w with
    | (Ok a, w') => k a w'
    | (Raise e, w') => (Raise e, w')
    end.

Definition lift {A} (r : result A) : M A := fun w => (r, w).

(** [try: body except Exception as e: handler e] *)
Definition try_except {A} (body : M A) (handler : exn -> M A) : M A :=
  fun w =>
    match body w with
    | (Ok a, w') => (Ok a, w')
    | (Raise e, w') => handler e w'
    end.

Notation "x <- m ;; k" := (bind m (fun x => k))
  (at level 100, m at next level, right associativity).
Notation "m ;;; k" := (bind m (fun _ => k))
  (at level 100, right associativity).

Definition logger (lv : level) (msg : message) : M unit :=
  fun w => (Ok tt, {| files := files w; log := log w ++ [(lv, msg)];
                      clock := clock w; ticks := ticks w |}).

Definition datetime_now : M datetime :=
  fun w => (Ok (clock w (ticks w)),
            {| files := files w; log := log w; clock := clock w; ticks := S (ticks w) |}).

(** ** Configuration and requests *)

Inductive deployment : Type :=
| Standalone    (* monitor.py *)
| Serverless.   (* api/webhook.py *)

(** [not API_KEY] for the value [os.getenv] returned. *)
Definition key_missing (API_KEY : option string) : bool :=
  match API_KEY with
  | None => true
  | Some k => String.eqb k ""
  end.

(** The module body of [monitor.py] leaves through [exit(1)] when the key is
    missing; [api/webhook.py] has no such guard. *)
Definition module_loads (dep : deployment) (API_KEY : option string) : bool :=
  match dep with
  | Standalone => negb (key_missing API_KEY)
  | Serverless => true
  end.

(** A request, as far as the handlers look at it: its headers, and the
    outcome of [request.get_json()].  The call belongs to Flask, and the
    handlers call it with its default arguments ([silent=False]): it returns
    the parsed body, which is [None] for the body [null]; on a body that it
    cannot parse it raises [BadRequest], an [HTTPException] and so an
    [Exception]; a request whose content type is not JSON gets [None] from
    the older releases and an exception from the newer ones. *)
Record request : Type := {
  headers : gmap string string;
  get_json : result pyval
}.

(** The [not API_KEY] guard that only [api/webhook.py] has. *)
Definition not_configured (dep : deployment) (API_KEY : option string) : bool :=
  match dep with
  | Standalone => false
  | Serverless => key_missing API_KEY
  end.

(** ** verify_webhook_request *)

Definition verify_webhook_request (dep : deployment) (API_KEY : option string)
    (req : request) : bool * string :=
  if not_configured dep API_KEY
  then (false, "API key not configured")
  else
    let expected_api_key := API_KEY in
    let received_api_key := headers req !! "X-API-Key" in
    match received_api_key with
    | None => (false, "Missing X-API-Key header")
    | Some received =>
        if String.eqb received "" then (false, "Missing X-API-Key header")
        else if negb (bool_decide (Some received = expected_api_key))
        then (false, "Invalid API key")
        else (true, "Verified")
    end.

(** ** process_tweet_data *)

(** The dict literal bound to [tweet_info]: its values are evaluated in the
    order they are written, so the first method call that fails decides the
    exception.  [api/webhook.py] adds [processed_at]. *)
Definition tweet_info (dep : deployment) (rule_id rule_tag tweet : pyval) : M pyval :=
  id <- lift (py_get tweet "id" PNone) ;;
  text <- lift (py_get tweet "text" (PStr "")) ;;
  author1 <- lift (py_get tweet "author" (PDict [])) ;;
  author_id <- lift (py_get author1 "id" PNone) ;;
  author2 <- lift (py_get tweet "author" (PDict [])) ;;
  username <- lift (py_get author2 "username" PNone) ;;
  author3 <- lift (py_get tweet "author" (PDict [])) ;;
  name <- lift (py_get author3 "name" PNone) ;;
  created_at <- lift (py_get tweet "created_at" PNone) ;;
  retweet_count <- lift (py_get tweet "retweet_count" (PInt 0)) ;;
  like_count <- lift (py_get tweet "like_count" (PInt 0)) ;;
  reply_count <- lift (py_get tweet "reply_count" (PInt 0)) ;;
  let fields :=
    [ ("id", id);
      ("text", text);
      ("author", PDict [("id", author_id); ("username", username); ("name", name)]);
      ("created_at", created_at);
      ("metrics", PDict [("retweet_count", retweet_count);
                         ("like_count", like_count);
                         ("reply_count", reply_count)]);
      ("rule_info", PDict [("rule_id", rule_id); ("rule_tag", rule_tag)]) ] in
  match dep with
  | Standalone => ret (PDict fields)
  | Serverless =>
      now <- datetime_now ;;
      ret (PDict (fields ++ [("processed_at", PStr (isoformat now))]))
  end.

(** The body of the [for tweet in tweets] loop, which appends to
    [processed_tweets] and then logs the tweet. *)
Definition loop_body (dep : deployment) (rule_id rule_tag : pyval)
    (processed_tweets : list pyval) (tweet : pyval) : M (list pyval) :=
  info <- tweet_info dep rule_id rule_tag tweet ;;
  let processed_tweets := processed_tweets ++ [info] in
  author <- lift (py_getitem info "author") ;;
  username <- lift (py_getitem author "username") ;;
  text <- lift (py_getitem info "text") ;;
  text100 <- lift (py_slice_to 100 text) ;;
  logger INFO (MsgTweet username text100) ;;;
  ret processed_tweets.

Fixpoint for_each {A B} (body : B -> A -> M B) (items : list A) (acc : B) : M B :=
  match items with
  | [] => ret acc
  | x :: items' => acc' <- body acc x ;; for_each body items' acc'
  end.

Definition process_tweet_data (dep : deployment) (webhook_data : pyval) : M (list pyval) :=
  let processed_tweets := [] in
  try_except
    (event_type <- lift (py_get webhook_data "event_type" PNone) ;;
     rule_id <- lift (py_get webhook_data "rule_id" PNone) ;;
     rule_tag <- lift (py_get webhook_data "rule_tag" PNone) ;;
     tweets <- lift (py_get webhook_data "tweets" (PList [])) ;;
     n <- lift (py_len tweets) ;;
     logger INFO (MsgProcessing n rule_tag rule_id) ;;;
     items <- lift (py_iter tweets) ;;
     for_each (loop_body dep rule_id rule_tag) items processed_tweets)
    (fun e => logger ERROR (MsgErrorProcessing e) ;;; ret []).

(** ** save_tweets_to_file (monitor.py only)

    The function has no [return]: its value is [None] on every path.  The
    model's file system takes every write; what can fail is reading the
    partition back ([json.load] on a file that is not JSON) and [extend] on a
    value that is not a list. *)

Definition tweets_filename (now : datetime) : string :=
  "tweets_" +:+ strftime_Ymd now +:+ ".json".

Definition json_load (filename : string) : M pyval :=
  fun w =>
    match files w !! filename with
    | Some (JsonFile v) => (Ok v, w)
    | _ => (Raise JSONDecodeError, w)
    end.

Definition os_path_exists (filename : string) : M bool :=
  fun w => (Ok (bool_decide (is_Some (files w !! filename))), w).

Definition json_dump (v : pyval) (filename : string) : M unit :=
  fun w => (Ok tt, {| files := <[filename := JsonFile v]> (files w); log := log w;
                      clock := clock w; ticks := ticks w |}).

(** [existing.extend(tweets)] *)
Definition py_extend (existing : pyval) (tweets : list pyval) : result pyval :=
  match existing with
  | PList l => Ok (PList (l ++ tweets))
  | _ => Raise AttributeError
  end.

Definition save_tweets_to_file (tweets : list pyval) : M pyval :=
  try_except
    (now <- datetime_now ;;
     let filename := tweets_filename now in
     present <- os_path_exists filename ;;
     existing_tweets <- (if (present : bool) then json_load filename else ret (PList [])) ;;
     existing_tweets <- lift (py_extend existing_tweets tweets) ;;
     json_dump existing_tweets filename ;;;
     logger INFO (MsgSaved (length tweets) filename))
    (fun e => logger ERROR (MsgErrorSaving e)) ;;;
  ret PNone.

(** ** webhook_handler *)

(** [jsonify(body), status] *)
Definition response : Type := (pyval * nat)%type.

(** The [timestamp] item that [api/webhook.py] adds to a body. *)
Definition with_timestamp (dep : deployment) (items : list (string * pyval)) : M pyval :=
  match dep with
  | Standalone => ret (PDict items)
  | Serverless =>
      now <- datetime_now ;;
      ret (PDict (items ++ [("timestamp", PStr (isoformat now))]))
  end.

Definition webhook_handler (dep : deployment) (API_KEY : option string)
    (req : request) : M response :=
  try_except
    (let '(is_valid, message) := verify_webhook_request dep API_KEY req in
     if negb is_valid then
       logger WARNING (MsgUnauthorized message) ;;;
       ret (PDict [("error", PStr "Unauthorized")], 401)
     else
       webhook_data <- lift (get_json req) ;;
       if negb (truthy webhook_data) then
         logger WARNING MsgNoJson ;;;
         ret (PDict [("error", PStr "No JSON data provided")], 400)
       else
         logger INFO MsgReceivedValid ;;;
         processed_tweets <- process_tweet_data dep webhook_data ;;
         if truthy (PList processed_tweets) then
           match dep with
           | Standalone => _ <- save_tweets_to_file processed_tweets ;; ret tt
           | Serverless => logger INFO (MsgSuccessfullyProcessed (length processed_tweets))
           end ;;;
           body <- with_timestamp dep
             [ ("status", PStr "success");
               ("message", PStr ("Processed " +:+ pretty (length processed_tweets) +:+ " tweets"));
               ("tweets_count", PInt (Z.of_nat (length processed_tweets))) ] ;;
           ret (body, 200)
         else
           logger INFO MsgNoTweets ;;;
           body <- with_timestamp dep
             [ ("status", PStr "success");
               ("message", PStr "No tweets to process") ] ;;
           ret (body, 200))
    (fun e =>
       logger ERROR (MsgErrorHandler e) ;;;
       body <- with_timestamp dep [("error", PStr "Internal server error")] ;;
       ret (body, 500)).

(** ** health_check and get_stats *)

(** [bool(API_KEY)] *)
Definition api_key_configured (API_KEY : option string) : bool :=
  negb (key_missing API_KEY).

(** The two files name the service differently, and [api/webhook.py] adds
    whether a secret is configured. *)
Definition health_check (dep : deployment) (API_KEY : option string) : M response :=
  now <- datetime_now ;;
  match dep with
  | Standalone =>
      ret (PDict [ ("status", PStr "healthy");
                   ("timestamp", PStr (isoformat now));
                   ("service", PStr "TwitterAPI Monitor") ], 200)
  | Serverless =>
      ret (PDict [ ("status", PStr "healthy");
                   ("timestamp", PStr (isoformat now));
                   ("service", PStr "TwitterAPI Monitor (Vercel)");
                   ("api_key_configured", PBool (api_key_configured API_KEY)) ], 200)
  end.

(** The line that [get_stats] logs. *)
Inductive stats_message : Type :=
| MsgErrorStats (e : exn).

(** [get_stats] (monitor.py only).  The values of the dict literals are
    evaluated in the order they are written: [len(tweets)] comes before the
    second reading of the clock.  The line the [except] clause logs is handed
    back beside the response; the [log] of the world keeps the lines of the
    webhook route. *)
Definition get_stats : M (response * list (level * stats_message)) :=
  try_except
    (now <- datetime_now ;;
     let today_filename := tweets_filename now in
     present <- os_path_exists today_filename ;;
     if (present : bool) then
       tweets <- json_load today_filename ;;
       tweets_today <- lift (py_len tweets) ;;
       last_updated <- datetime_now ;;
       ret (PDict [ ("tweets_today", PInt (Z.of_nat tweets_today));
                    ("last_updated", PStr (isoformat last_updated));
                    ("file", PStr today_filename) ], 200, [])
     else
       last_updated <- datetime_now ;;
       ret (PDict [ ("tweets_today", PInt 0);
                    ("last_updated", PStr (isoformat last_updated));
                    ("message", PStr "No tweets received today") ], 200, []))
    (fun e =>
       ret (PDict [("error", PStr "Error retrieving stats")], 500,
            [(ERROR, MsgErrorStats e)])).

(** ** Specification vocabulary *)

(** What [tweet.get('author', {})] must be for the three [.get] calls on it
    to go through, and what [tweet_info['text'][:100]] needs of the text. *)
Definition well_formed_entry (tweet : pyval) : bool :=
  match tweet with
  | PDict d =>
      match dict_get "author" d (PDict []) with PDict _ => true | _ => false end
      && match dict_get "text" d (PStr "") with PStr _ | PList _ => true | _ => false end
  | _ => false
  end.

Definition items_of (o : pyval) : list (string * pyval) :=
  match o with
  | PDict d => d
  | _ => []
  end.

(** The record of one raw tweet; [now] is the clock reading that
    [api/webhook.py] stamps it with. *)
Definition normalized (dep : deployment) (rule_id rule_tag tweet : pyval)
    (now : datetime) : pyval :=
  let d := items_of tweet in
  let a := items_of (dict_get "author" d (PDict [])) in
  PDict
    ([ ("id", dict_get "id" d PNone);
       ("text", dict_get "text" d (PStr ""));
       ("author", PDict [("id", dict_get "id" a PNone);
                         ("username", dict_get "username" a PNone);
                         ("name", dict_get "name" a PNone)]);
       ("created_at", dict_get "created_at" d PNone);
       ("metrics", PDict [("retweet_count", dict_get "retweet_count" d (PInt 0));
                          ("like_count", dict_get "like_count" d (PInt 0));
                          ("reply_count", dict_get "reply_count" d (PInt 0))]);
       ("rule_info", PDict [("rule_id", rule_id); ("rule_tag", rule_tag)]) ]
     ++ match dep with
        | Standalone => []
        | Serverless => [("processed_at", PStr (isoformat now))]
        end).

(** Clock readings one record takes. *)
Definition readings (dep : deployment) : nat :=
  match dep with
  | Standalone => 0
  | Serverless => 1
  end.

(** The records of a batch, the first of them stamped with reading [t]. *)
Fixpoint normalized_batch (dep : deployment) (rule_id rule_tag : pyval)
    (clk : nat -> datetime) (t : nat) (tweets : list pyval) : list pyval :=
  match tweets with
  | [] => []
  | tweet :: tweets' =>
      normalized dep rule_id rule_tag tweet (clk t)
        :: normalized_batch dep rule_id rule_tag clk (readings dep + t) tweets'
  end.

(** The entries the loop of [process_tweet_data] visits. *)
Definition entries (webhook_data : pyval) : list pyval :=
  match py_get webhook_data "tweets" (PList []) with
  | Ok tweets => match py_iter tweets with Ok items => items | Raise _ => [] end
  | Raise _ => []
  end.

(** An entry is malformed when handling it raises. *)
Definition entry_raises (dep : deployment) (tweet : pyval) : Prop :=
  exists rule_id rule_tag acc w e w',
    loop_body dep rule_id rule_tag acc tweet w = (Raise e, w').

(** The daily partition of [day], when it can be read: a missing file is the
    empty partition, and a file that does not hold a JSON array is an error
    for [save_tweets_to_file]. *)
Definition partition (w : world) (day : string) : option (list pyval) :=
  match files w !! ("tweets_" +:+ day +:+ ".json") with
  | None => Some []
  | Some (JsonFile (PList l)) => Some l
  | Some _ => None
  end.

(** The status code of a response. *)
Definition status {A} (r : result (A * nat)) : option nat :=
  match r with
  | Ok (_, code) => Some code
  | Raise _ => None
  end.

(** [webhook_data.get(key)] where the payload is a dict. *)
Definition payload_field (key : string) (webhook_data : pyval) : pyval :=
  dict_get key (items_of webhook_data) PNone.

(** A valid payload: a dict whose [tweets], the empty list when the key is
    missing, is a list of well-formed entries. *)
Definition valid_payload (webhook_data : pyval) (tweets : list pyval) : Prop :=
  py_get webhook_data "tweets" (PList []) = Ok (PList tweets)
  /\ forallb well_formed_entry tweets = true.

(** The [author] of a record of which nothing is known. *)
Definition null_author : pyval :=
  PDict [("id", PNone); ("username", PNone); ("name", PNone)].

(** The world after one more line in the log. *)
Definition note (lv : level) (msg : message) (w : world) : world :=
  {| files := files w; log := log w ++ [(lv, msg)]; clock := clock w; ticks := ticks w |}.

(** An action that leaves one component of the world as it found it. *)
Definition keeps {A B} (part : world -> B) (m : M A) : Prop :=
  forall w, part (snd (m w)) = part w.

(** The response of [get_stats], without the line it logged. *)
Definition stats_response (w : world) : result response :=
  match fst (get_stats w) with
  | Ok (answer, _) => Ok answer
  | Raise e => Raise e
  end.

(** The file to which the [FileHandler] of [monitor.py] appends every line
    that [logger] is given (lines 18 to 25); [api/webhook.py] logs to the
    stream only.  The [log] of a world holds these lines; its [files] do not
    follow the log file, so what is said below of the files of [monitor.py]
    leaves this one out. *)
Definition LOG_FILE : string := "twitter_monitor.log".

(** Two worlds with the same files, the log file apart. *)
Definition same_files_but_log (w w' : world) : Prop :=
  forall filename, filename <> LOG_FILE -> files w' !! filename = files w !! filename.

(** The last line in the log of a world.  In the program the write of
    [save_tweets_to_file] can fail after [open] has emptied the file (a text
    that utf-8 cannot encode makes [json.dump] raise), which the file system
    of the model, taking every write, does not show.  The function logs its
    [Saved] line when [json.dump] has come back, and nothing after it on that
    path: this line as the last one tells that the write went through, and
    what is said below of a write that went through is said under it. *)
Definition last_logged (w : world) : option (level * message) :=
  last (log w).

(** ** Sample data *)

Definition ex_noon : datetime :=
  {| strftime_Ymd := "20240101"; isoformat := "2024-01-01T12:00:00" |}.

Definition ex_world : world :=
  {| files := empty; log := []; clock := fun _ => ex_noon; ticks := 0 |}.

Definition ex_tweet_bob : pyval :=
  PDict [("id", PStr "1"); ("text", PStr "hi");
         ("author", PDict [("username", PStr "bob")])].

Definition ex_tweet_no_author : pyval :=
  PDict [("id", PStr "2"); ("text", PStr "yo")].

(** [{"id": "3", "text": "oops", "author": "carol"}]: the author is a
    string, and [tweet.get('author', {}).get('id')] fails on it. *)
Definition ex_tweet_author_string : pyval :=
  PDict [("id", PStr "3"); ("text", PStr "oops"); ("author", PStr "carol")].

Definition ex_payload (tweets : list pyval) : pyval :=
  PDict [("rule_id", PStr "r1"); ("rule_tag", PStr "demo"); ("tweets", PList tweets)].

Definition ex_request (key : option string) (body : result pyval) : request :=
  {| headers := match key with
                | Some k => {[ "X-API-Key" := k ]}
                | None => empty
                end;
     get_json := body |}.

Definition ex_record : pyval :=
  normalized Standalone (PStr "r1") (PStr "demo") ex_tweet_bob ex_noon.

Definition ex_record2 : pyval :=
  normalized Standalone (PStr "r1") (PStr "demo") ex_tweet_no_author ex_noon.

(** [{"id": "1", "text": null}]: no author, and a text that the log line
    cannot slice. *)
Definition ex_tweet_null_text : pyval :=
  PDict [("id", PStr "1"); ("text", PNone)].

(** A world whose file of the day is not JSON. *)
Definition ex_world_garbled : world :=
  {| files := {[ "tweets_20240101.json" := NotJson ]}; log := [];
     clock := fun _ => ex_noon; ticks := 0 |}.

(** A world with an untouched file of another day. *)
Definition ex_world_yesterday : world :=
  {| files := {[ "tweets_20231231.json" := JsonFile (PList [ex_record]) ]}; log := [];
     clock := fun _ => ex_noon; ticks := 0 |}.

(** * Properties *)

(** ** The loop of process_tweet_data *)

Section Loop.
Variable dep : deployment.
Variables rule_id rule_tag : pyval.

(** A well-formed entry is handled without an exception: its record is
    appended, the files are left alone and the clock moves by the readings
    the record took. *)
Lemma loop_body_well_formed acc tweet w :
  well_formed_entry tweet = true ->
  exists w',
    loop_body dep rule_id rule_tag acc tweet w
      = (Ok (acc ++ [normalized dep rule_id rule_tag tweet (clock w (ticks w))]), w')
    /\ files w' = files w /\ clock w' = clock w
    /\ ticks w' = readings dep + ticks w.
Proof.
  destruct tweet as [ | | | | | |d]; try discriminate.
  unfold well_formed_entry, loop_body, tweet_info, normalized, bind, lift; cbn.
  destruct (dict_get "author" d (PDict [])) as [ | | | | | |a]; try discriminate.
  destruct (dict_get "text" d (PStr "")) as [ | | | |s|l| ]; try discriminate;
    intros _; destruct dep; cbn; eexists; (split; [reflexivity | auto]).
Qed.

(** Any other entry raises, whatever was processed before it. *)
Lemma loop_body_malformed acc tweet w :
  well_formed_entry tweet = false ->
  exists e w', loop_body dep rule_id rule_tag acc tweet w = (Raise e, w').
Proof.
  unfold well_formed_entry, loop_body, tweet_info, bind, lift.
  destruct tweet as [ | | | | | |d]; cbn; eauto.
  destruct (dict_get "author" d (PDict [])) as [ | | | | | |a]; cbn; eauto.
  destruct (dict_get "text" d (PStr "")) as [ | | | |s|l| ]; try discriminate;
    intros _; destruct dep; cbn; eauto.
Qed.

Lemma for_each_well_formed tweets : forall acc w,
  forallb well_formed_entry tweets = true ->
  exists w',
    for_each (loop_body dep rule_id rule_tag) tweets acc w
      = (Ok (acc ++ normalized_batch dep rule_id rule_tag (clock w) (ticks w) tweets), w')
    /\ files w' = files w.
Proof.
  induction tweets as [|tweet tweets IH]; intros acc w Hwf; cbn.
  - exists w. rewrite app_nil_r. auto.
  - cbn in Hwf. apply andb_prop in Hwf as [Htweet Hrest].
    destruct (loop_body_well_formed acc tweet w Htweet)
      as (w1 & Hstep & Hfiles & Hclock & Hticks).
    destruct (IH (acc ++ [normalized dep rule_id rule_tag tweet (clock w (ticks w))])
                w1 Hrest) as (w2 & Hloop & Hfiles2).
    exists w2. unfold bind. rewrite Hstep, Hloop, Hclock, Hticks, <- app_assoc.
    split; [reflexivity | congruence].
Qed.

Lemma for_each_malformed tweets : forall acc w,
  forallb well_formed_entry tweets = false ->
  exists e w', for_each (loop_body dep rule_id rule_tag) tweets acc w = (Raise e, w').
Proof.
  induction tweets as [|tweet tweets IH]; intros acc w Hbad; cbn in *; [discriminate|].
  unfold bind.
  destruct (well_formed_entry tweet) eqn:Htweet.
  - destruct (loop_body_well_formed acc tweet w Htweet) as (w1 & Hstep & _).
    rewrite Hstep. apply IH. exact Hbad.
  - destruct (loop_body_malformed acc tweet w Htweet) as (e & w1 & Hstep).
    rewrite Hstep. eauto.
Qed.
End Loop.

(** Being malformed is a property of the entry alone. *)
Lemma entry_raises_iff dep tweet :
  entry_raises dep tweet <-> well_formed_entry tweet = false.
Proof.
  split.
  - intros (rid & rtag & acc & w & e & w' & Hraise).
    destruct (well_formed_entry tweet) eqn:Hwf; [|reflexivity].
    destruct (loop_body_well_formed dep rid rtag acc tweet w Hwf) as (w1 & Hok & _).
    congruence.
  - intros Hbad.
    destruct (loop_body_malformed dep PNone PNone [] tweet
                {| files := empty; log := []; clock := fun _ => {| strftime_Ymd := ""; isoformat := "" |}; ticks := 0 |} Hbad)
      as (e & w' & Hraise).
    unfold entry_raises. eauto 10.
Qed.

Lemma forallb_false_exists {A} (f : A -> bool) (l : list A) :
  forallb f l = false <-> exists x, In x l /\ f x = false.
Proof.
  induction l as [|a l IH]; cbn.
  - split; [discriminate | intros (x & [] & _)].
  - rewrite andb_false_iff, IH. split.
    + intros [Ha | (x & Hin & Hx)]; eauto.
    + intros (x & [-> | Hin] & Hx); eauto.
Qed.

Lemma normalized_batch_length dep rid rtag clk tweets : forall t,
  length (normalized_batch dep rid rtag clk t tweets) = length tweets.
Proof. induction tweets; intros t; cbn; auto. Qed.

Lemma normalized_batch_lookup dep rid rtag clk (tweets : list pyval) : forall t i tweet,
  tweets !! i = Some tweet ->
  normalized_batch dep rid rtag clk t tweets !! i
    = Some (normalized dep rid rtag tweet (clk (i * readings dep + t))).
Proof.
  induction tweets as [|x tweets IH]; intros t i tweet Hi; [discriminate|].
  destruct i as [|i]; cbn in *.
  - congruence.
  - rewrite (IH _ _ _ Hi). do 3 f_equal. lia.
Qed.

(** [monitor.py] only serves requests with a secret that is not empty. *)
Lemma module_loads_standalone API_KEY :
  module_loads Standalone API_KEY = true ->
  exists k, API_KEY = Some k /\ k <> "".
Proof.
  destruct API_KEY as [[|c k]|]; cbn; try discriminate.
  intros _. exists (String c k). split; [reflexivity | discriminate].
Qed.

(** ** process_tweet_data as a function of its payload *)

(** The whole of the normaliser: the records of all entries when every entry
    is well-formed, and the empty list otherwise. *)
Lemma process_tweet_data_spec dep webhook_data w :
  exists w',
    process_tweet_data dep webhook_data w
    = (Ok (if forallb well_formed_entry (entries webhook_data)
           then normalized_batch dep (payload_field "rule_id" webhook_data)
                  (payload_field "rule_tag" webhook_data)
                  (clock w) (ticks w) (entries webhook_data)
           else []), w').
Proof.
  unfold process_tweet_data, try_except, entries, payload_field.
  destruct webhook_data as [ | | | | | |p]; cbn; eauto.
  set (rid := dict_get "rule_id" p PNone).
  set (rtag := dict_get "rule_tag" p PNone).
  assert (Hloop : forall items w1,
    clock w1 = clock w -> ticks w1 = ticks w ->
    exists w',
      (let (r, w2) := for_each (loop_body dep rid rtag) items [] w1 in
       match r with
       | Ok a => (Ok a, w2)
       | Raise e =>
           ret [] {| files := files w2; log := log w2 ++ [(ERROR, MsgErrorProcessing e)];
                     clock := clock w2; ticks := ticks w2 |}
       end)
      = (Ok (if forallb well_formed_entry items
             then normalized_batch dep rid rtag (clock w) (ticks w) items
             else []), w')).
  { intros items w1 Hclock Hticks.
    destruct (forallb well_formed_entry items) eqn:Hwf.
    - destruct (for_each_well_formed dep rid rtag items [] w1 Hwf) as (w2 & -> & _).
      cbn. rewrite Hclock, Hticks. eauto.
    - destruct (for_each_malformed dep rid rtag items [] w1 Hwf) as (e & w2 & ->).
      cbn. eauto. }
  destruct (dict_get "tweets" p (PList [])) as [ | | | |s|l|d]; cbn; eauto;
    apply Hloop; reflexivity.
Qed.

(** ** Claims about process_tweet_data *)

Lemma normalized_batch_In dep rid rtag clk tweets : forall t r,
  In r (normalized_batch dep rid rtag clk t tweets) ->
  exists tweet now, In tweet tweets /\ r = normalized dep rid rtag tweet now.
Proof.
  induction tweets as [|x tweets IH]; intros t r; cbn; [tauto|].
  intros [<- | Hin]; [eauto|].
  destruct (IH _ _ Hin) as (tweet & now & Htweet & ->). eauto.
Qed.

Lemma valid_payload_entries webhook_data tweets :
  valid_payload webhook_data tweets ->
  entries webhook_data = tweets
  /\ exists p, webhook_data = PDict p.
Proof.
  intros [Hget _]. unfold entries. rewrite Hget. split; [reflexivity|].
  destruct webhook_data; try discriminate. eauto.
Qed.

(** On a valid payload the call returns the batch of all records. *)
Lemma process_tweet_data_valid dep webhook_data tweets w :
  valid_payload webhook_data tweets ->
  exists w',
    process_tweet_data dep webhook_data w
    = (Ok (normalized_batch dep (payload_field "rule_id" webhook_data)
             (payload_field "rule_tag" webhook_data) (clock w) (ticks w) tweets), w').
Proof.
  intros Hvalid.
  destruct (valid_payload_entries _ _ Hvalid) as [Hentries _].
  destruct Hvalid as [_ Hwf].
  destruct (process_tweet_data_spec dep webhook_data w) as (w' & Hrun).
  rewrite Hentries, Hwf in Hrun. eauto.
Qed.

(** C1. For a valid payload, that is a dict whose [tweets] is a list of N
    well-formed entries, [process_tweet_data] returns exactly N records; the
    record at position [i] is the one built from the entry at position [i]
    (so the order of the input is kept); and the [rule_info] of every record
    holds the [rule_id] and the [rule_tag] of the payload. *)
Theorem process_tweet_data_valid_payload dep webhook_data tweets w :
  valid_payload webhook_data tweets ->
  exists out w',
    process_tweet_data dep webhook_data w = (Ok out, w')
    /\ length out = length tweets
    /\ (forall i tweet,
          tweets !! i = Some tweet ->
          out !! i = Some (normalized dep (payload_field "rule_id" webhook_data)
                             (payload_field "rule_tag" webhook_data) tweet
                             (clock w (i * readings dep + ticks w))))
    /\ (forall r,
          In r out ->
          py_getitem r "rule_info"
          = Ok (PDict [("rule_id", payload_field "rule_id" webhook_data);
                       ("rule_tag", payload_field "rule_tag" webhook_data)])).
Proof.
  intros Hvalid.
  destruct (process_tweet_data_valid dep webhook_data tweets w Hvalid) as (w' & Hrun).
  eexists; exists w'. split; [exact Hrun|]. split; [|split].
  - apply normalized_batch_length.
  - intros i tweet Hi. apply normalized_batch_lookup. exact Hi.
  - intros r Hin. apply normalized_batch_In in Hin as (tweet & now & _ & ->).
    reflexivity.
Qed.

Lemma process_tweet_data_valid_payload_witness :
  exists out w',
    process_tweet_data Serverless (ex_payload [ex_tweet_bob; ex_tweet_no_author]) ex_world
    = (Ok out, w')
    /\ length out = 2.
Proof.
  destruct (process_tweet_data_valid_payload Serverless
              (ex_payload [ex_tweet_bob; ex_tweet_no_author])
              [ex_tweet_bob; ex_tweet_no_author] ex_world)
    as (out & w' & Hrun & Hlen & _).
  - split; reflexivity.
  - exists out, w'. split; [exact Hrun | exact Hlen].
Defined.

(** C2, as the code has it.  The [try] of [process_tweet_data] encloses the
    whole loop: when the batch holds a malformed entry, the call returns the
    empty list, whatever the other entries are and wherever the malformed one
    stands; the records of the well-formed entries are dropped with it. *)
Theorem malformed_entry_empties_batch dep webhook_data tweets bad w :
  py_get webhook_data "tweets" (PList []) = Ok (PList tweets) ->
  In bad tweets ->
  well_formed_entry bad = false ->
  exists w', process_tweet_data dep webhook_data w = (Ok [], w').
Proof.
  intros Hget Hin Hbad.
  destruct (process_tweet_data_spec dep webhook_data w) as (w' & Hrun).
  unfold entries in Hrun. rewrite Hget in Hrun. cbn in Hrun.
  assert (Hnot : forallb well_formed_entry tweets = false)
    by (apply forallb_false_exists; eauto).
  rewrite Hnot in Hrun. eauto.
Qed.

Lemma malformed_entry_empties_batch_witness :
  exists w',
    process_tweet_data Standalone
      (ex_payload [ex_tweet_bob; ex_tweet_author_string; ex_tweet_no_author]) ex_world
    = (Ok [], w').
Proof.
  apply (malformed_entry_empties_batch Standalone
           (ex_payload [ex_tweet_bob; ex_tweet_author_string; ex_tweet_no_author])
           [ex_tweet_bob; ex_tweet_author_string; ex_tweet_no_author]
           ex_tweet_author_string ex_world).
  - reflexivity.
  - simpl. auto.
  - reflexivity.
Defined.

(** C2 fails on the batch of [bob], an entry whose author is a string, and
    an entry without author: the first and the last entry are well-formed,
    extracting the author fields of the middle one raises, and no record
    comes out. *)
Lemma one_malformed_entry_drops_the_others :
  well_formed_entry ex_tweet_bob = true
  /\ well_formed_entry ex_tweet_no_author = true
  /\ entry_raises Standalone ex_tweet_author_string
  /\ fst (process_tweet_data Standalone
            (ex_payload [ex_tweet_bob; ex_tweet_author_string; ex_tweet_no_author]) ex_world)
     = Ok []
  /\ ~ (exists out w' r,
          process_tweet_data Standalone
            (ex_payload [ex_tweet_bob; ex_tweet_author_string; ex_tweet_no_author]) ex_world
          = (Ok out, w')
          /\ In r out).
Proof.
  split; [reflexivity|]. split; [reflexivity|].
  split; [apply entry_raises_iff; reflexivity|].
  split; [reflexivity|].
  intros (out & w' & r & Hrun & Hin).
  vm_compute in Hrun. inversion Hrun; subst. destruct Hin.
Qed.

(** C3. [process_tweet_data] returns a list on every input and in every
    world, it never raises.  When handling one of the entries raises, the
    list is empty; when handling none of them raises, the list is the full
    batch, one record for each entry in the order of the entries; so the list
    is never a part of the batch, and an empty list comes from an exception
    or from a payload without entries, and from nothing else. *)
Theorem process_tweet_data_never_raises dep webhook_data w :
  exists out w',
    process_tweet_data dep webhook_data w = (Ok out, w')
    /\ ((exists tweet, In tweet (entries webhook_data) /\ entry_raises dep tweet) ->
        out = [])
    /\ ((forall tweet, In tweet (entries webhook_data) -> ~ entry_raises dep tweet) ->
        out = normalized_batch dep (payload_field "rule_id" webhook_data)
                (payload_field "rule_tag" webhook_data)
                (clock w) (ticks w) (entries webhook_data)
        /\ length out = length (entries webhook_data))
    /\ (out = []
        \/ out = normalized_batch dep (payload_field "rule_id" webhook_data)
                   (payload_field "rule_tag" webhook_data)
                   (clock w) (ticks w) (entries webhook_data))
    /\ (out = [] ->
        entries webhook_data = []
        \/ exists tweet, In tweet (entries webhook_data) /\ entry_raises dep tweet).
Proof.
  destruct (process_tweet_data_spec dep webhook_data w) as (w' & Hrun).
  eexists; exists w'. split; [exact Hrun|].
  destruct (forallb well_formed_entry (entries webhook_data)) eqn:Hwf.
  - split; [|split; [|split; [right; reflexivity|]]].
    + intros (tweet & Hin & Hraises). apply entry_raises_iff in Hraises.
      rewrite forallb_forall in Hwf.
      rewrite (Hwf tweet Hin) in Hraises. discriminate.
    + intros _. split; [reflexivity | apply normalized_batch_length].
    + intros Hempty. left.
      apply (f_equal (@length pyval)) in Hempty.
      rewrite normalized_batch_length in Hempty.
      destruct (entries webhook_data); [reflexivity | discriminate].
  - apply forallb_false_exists in Hwf as (tweet & Hin & Hbad).
    apply (entry_raises_iff dep) in Hbad.
    split; [reflexivity|]. split; [|split; [left; reflexivity|]].
    + intros Hnone. destruct (Hnone tweet Hin Hbad).
    + intros _. right. eauto.
Qed.

(** C9, as the code has it.  An entry without an [author] key: building
    its record does not raise and the three fields of its [author] are
    [None]; and in a valid payload, where every entry is well-formed, the
    record that [process_tweet_data] returns at the position of such an entry
    has these three [None].  The absence of the author is no error, but the
    entry can still be malformed for another reason. *)
Theorem missing_author_gives_null_author dep :
  (forall rule_id rule_tag d w,
     dict_lookup "author" d = None ->
     exists r w',
       tweet_info dep rule_id rule_tag (PDict d) w = (Ok r, w')
       /\ py_getitem r "author" = Ok null_author)
  /\ (forall webhook_data tweets i d w,
        valid_payload webhook_data tweets ->
        tweets !! i = Some (PDict d) ->
        dict_lookup "author" d = None ->
        exists out w' r,
          process_tweet_data dep webhook_data w = (Ok out, w')
          /\ out !! i = Some r
          /\ py_getitem r "author" = Ok null_author).
Proof.
  split.
  - intros rid rtag d w Hnone.
    unfold tweet_info, bind, lift, dict_get; cbn. unfold dict_get. rewrite Hnone. cbn.
    destruct dep; cbn; eexists; eexists; (split; [reflexivity|]); reflexivity.
  - intros webhook_data tweets i d w Hvalid Hi Hnone.
    destruct (process_tweet_data_valid dep webhook_data tweets w Hvalid) as (w' & Hrun).
    eexists; exists w'; eexists. split; [exact Hrun|].
    split; [apply normalized_batch_lookup; exact Hi|].
    unfold normalized, dict_get; cbn. rewrite Hnone. reflexivity.
Qed.

Lemma missing_author_gives_null_author_witness :
  exists out w' r,
    process_tweet_data Standalone (ex_payload [ex_tweet_bob; ex_tweet_no_author]) ex_world
    = (Ok out, w')
    /\ out !! 1 = Some r
    /\ py_getitem r "author" = Ok null_author.
Proof.
  apply (proj2 (missing_author_gives_null_author Standalone)
           (ex_payload [ex_tweet_bob; ex_tweet_no_author])
           [ex_tweet_bob; ex_tweet_no_author] 1
           [("id", PStr "2"); ("text", PStr "yo")] ex_world).
  - split; reflexivity.
  - reflexivity.
  - reflexivity.
Defined.

(** C9 fails on the entry [{"id": "1", "text": null}]: it has no author, the
    slice of the log line raises on its text, and [process_tweet_data]
    returns no record for it, in both deployments. *)
Lemma missing_author_with_null_text_gives_no_record :
  dict_lookup "author" (items_of ex_tweet_null_text) = None
  /\ entry_raises Standalone ex_tweet_null_text
  /\ fst (process_tweet_data Standalone (ex_payload [ex_tweet_null_text]) ex_world) = Ok []
  /\ fst (process_tweet_data Serverless (ex_payload [ex_tweet_null_text]) ex_world) = Ok []
  /\ ~ (exists out w' r,
          process_tweet_data Standalone (ex_payload [ex_tweet_null_text]) ex_world
          = (Ok out, w')
          /\ In r out).
Proof.
  split; [reflexivity|].
  split; [apply entry_raises_iff; reflexivity|].
  split; [reflexivity|]. split; [reflexivity|].
  intros (out & w' & r & Hrun & Hin).
  vm_compute in Hrun. inversion Hrun; subst. destruct Hin.
Qed.

(** ** Claims about verify_webhook_request *)

Lemma verify_webhook_request_unfold dep API_KEY req :
  verify_webhook_request dep API_KEY req
  = if not_configured dep API_KEY then (false, "API key not configured")
    else match headers req !! "X-API-Key" with
         | None => (false, "Missing X-API-Key header")
         | Some received =>
             if String.eqb received "" then (false, "Missing X-API-Key header")
             else if bool_decide (Some received = API_KEY) then (true, "Verified")
             else (false, "Invalid API key")
         end.
Proof.
  unfold verify_webhook_request.
  destruct (not_configured dep API_KEY), (headers req !! "X-API-Key") as [k|];
    try reflexivity; destruct (String.eqb k ""); try reflexivity;
    destruct (bool_decide (Some k = API_KEY)); reflexivity.
Qed.

(** When the check lets a request through. *)
Lemma verify_webhook_request_true_iff dep API_KEY req :
  fst (verify_webhook_request dep API_KEY req) = true
  <-> exists k, API_KEY = Some k /\ k <> "" /\ headers req !! "X-API-Key" = Some k.
Proof.
  rewrite verify_webhook_request_unfold. split.
  - destruct (not_configured dep API_KEY); [discriminate|].
    destruct (headers req !! "X-API-Key") as [k|]; [|discriminate].
    destruct k as [|c k]; [discriminate|]. cbn.
    case_bool_decide; [|discriminate].
    intros _. exists (String c k). auto.
  - intros (k & -> & Hk & ->).
    assert (not_configured dep (Some k) = false) as ->.
    { destruct dep; cbn; [reflexivity|]. destruct k; [congruence | reflexivity]. }
    destruct k as [|c k]; [congruence|]. cbn.
    rewrite bool_decide_eq_true_2; reflexivity.
Qed.

(** C8, as the code has it.  The check succeeds exactly when the secret is
    configured (a string that is not empty) and the [X-API-Key] header holds
    that very string.  Where it fails: in the serverless variant without a
    secret the reason is the not-configured one, whatever the headers are;
    otherwise a header that is absent or empty gives the missing-header
    reason, and a header that is not empty and differs from the secret gives
    the invalid-key reason. *)
Theorem verify_webhook_request_cases dep API_KEY req :
  (fst (verify_webhook_request dep API_KEY req) = true
   <-> exists k, API_KEY = Some k /\ k <> "" /\ headers req !! "X-API-Key" = Some k)
  /\ (dep = Serverless -> key_missing API_KEY = true ->
      verify_webhook_request dep API_KEY req = (false, "API key not configured"))
  /\ (not_configured dep API_KEY = false ->
      (headers req !! "X-API-Key" = None \/ headers req !! "X-API-Key" = Some "" ->
       verify_webhook_request dep API_KEY req = (false, "Missing X-API-Key header"))
      /\ (forall k, headers req !! "X-API-Key" = Some k -> k <> "" ->
          (API_KEY <> Some k ->
           verify_webhook_request dep API_KEY req = (false, "Invalid API key"))
          /\ (API_KEY = Some k ->
              verify_webhook_request dep API_KEY req = (true, "Verified")))).
Proof.
  split; [apply verify_webhook_request_true_iff|].
  rewrite verify_webhook_request_unfold.
  split.
  - intros -> Hmiss. cbn. rewrite Hmiss. reflexivity.
  - intros ->. split.
    + intros [-> | ->]; reflexivity.
    + intros k -> Hk. destruct k as [|c k]; [congruence|]. cbn. split.
      * intros Hne. rewrite bool_decide_eq_false_2; [reflexivity | congruence].
      * intros ->. rewrite bool_decide_eq_true_2; reflexivity.
Qed.

Lemma verify_webhook_request_cases_witness :
  verify_webhook_request Standalone (Some "secret123") (ex_request (Some "wrong") (Ok PNone))
  = (false, "Invalid API key").
Proof.
  destruct (verify_webhook_request_cases Standalone (Some "secret123")
              (ex_request (Some "wrong") (Ok PNone)))
    as (_ & _ & Hcases).
  destruct (Hcases eq_refl) as [_ Hpresent].
  apply (Hpresent "wrong").
  - reflexivity.
  - discriminate.
  - discriminate.
Defined.

(** C8 fails on a header that is present and empty: it differs from the
    secret, and the reason is the missing-header one, not the invalid-key
    one. *)
Lemma empty_header_is_reported_missing :
  headers (ex_request (Some "") (Ok PNone)) !! "X-API-Key" = Some ""
  /\ "" <> "secret123"
  /\ verify_webhook_request Standalone (Some "secret123") (ex_request (Some "") (Ok PNone))
     = (false, "Missing X-API-Key header")
  /\ verify_webhook_request Standalone (Some "secret123") (ex_request (Some "") (Ok PNone))
     <> (false, "Invalid API key").
Proof.
  split; [reflexivity|]. split; [discriminate|]. split; [reflexivity | discriminate].
Qed.

(** C10, as the code has it.  A request whose [X-API-Key] header is the
    empty string is never verified, not even against an empty secret.  The
    reason given is the missing-header one, except in the serverless variant
    without a secret (unset or empty), where the not-configured guard comes
    first and gives its own reason. *)
Theorem empty_header_never_verified dep API_KEY req :
  headers req !! "X-API-Key" = Some "" ->
  fst (verify_webhook_request dep API_KEY req) = false
  /\ (not_configured dep API_KEY = false ->
      verify_webhook_request dep API_KEY req = (false, "Missing X-API-Key header"))
  /\ (not_configured dep API_KEY = true ->
      verify_webhook_request dep API_KEY req = (false, "API key not configured")).
Proof.
  intros Hempty. rewrite verify_webhook_request_unfold, Hempty.
  destruct (not_configured dep API_KEY); cbn; repeat split; congruence.
Qed.

Lemma empty_header_never_verified_witness :
  verify_webhook_request Standalone (Some "") (ex_request (Some "") (Ok PNone))
  = (false, "Missing X-API-Key header").
Proof.
  apply (proj1 (proj2 (empty_header_never_verified Standalone (Some "")
                         (ex_request (Some "") (Ok PNone)) eq_refl))).
  reflexivity.
Defined.

(** C10 fails in the serverless variant when no secret is configured: the
    request with the empty header is turned away with the not-configured
    reason. *)
Lemma empty_header_without_secret :
  headers (ex_request (Some "") (Ok PNone)) !! "X-API-Key" = Some ""
  /\ verify_webhook_request Serverless None (ex_request (Some "") (Ok PNone))
     = (false, "API key not configured")
  /\ verify_webhook_request Serverless (Some "") (ex_request (Some "") (Ok PNone))
     = (false, "API key not configured")
  /\ snd (verify_webhook_request Serverless None (ex_request (Some "") (Ok PNone)))
     <> "Missing X-API-Key header".
Proof.
  split; [reflexivity|]. split; [reflexivity|]. split; [reflexivity | discriminate].
Qed.

(** ** Claims about save_tweets_to_file *)

(** One call on a partition that can be read. *)
Lemma save_tweets_to_file_readable tweets w P :
  partition w (strftime_Ymd (clock w (ticks w))) = Some P ->
  save_tweets_to_file tweets w
  = (Ok PNone,
     {| files := <[tweets_filename (clock w (ticks w)) := JsonFile (PList (P ++ tweets))]>
                   (files w);
        log := log w ++ [(INFO, MsgSaved (length tweets)
                                  (tweets_filename (clock w (ticks w))))];
        clock := clock w;
        ticks := S (ticks w) |}).
Proof.
  unfold partition, save_tweets_to_file, try_except, bind, datetime_now,
    os_path_exists, json_load, json_dump, logger, lift, ret, tweets_filename.
  cbv beta iota zeta. cbn [files log clock ticks].
  set (filename := "tweets_" +:+ strftime_Ymd (clock w (ticks w)) +:+ ".json").
  destruct (files w !! filename) as [[v|]|] eqn:Hfile; [ | discriminate | ].
  - destruct v as [ | | | | |l| ]; try discriminate.
    intros [= ->].
    rewrite bool_decide_eq_true_2 by eauto.
    cbn [files log clock ticks]. rewrite Hfile. reflexivity.
  - intros [= <-].
    rewrite bool_decide_eq_false_2 by (intros [? ?]; discriminate).
    reflexivity.
Qed.

(** The function ends in [ret PNone] on both sides of its [try]. *)
Lemma save_tweets_to_file_value tweets w :
  fst (save_tweets_to_file tweets w) = Ok PNone.
Proof.
  unfold save_tweets_to_file, try_except, bind at 1.
  match goal with |- context [match ?body w with _ => _ end] => destruct (body w) as [[[]|e] w1] end;
    reflexivity.
Qed.

Lemma save_tweets_to_file_partition tweets w day P :
  partition w day = Some P ->
  strftime_Ymd (clock w (ticks w)) = day ->
  partition (snd (save_tweets_to_file tweets w)) day = Some (P ++ tweets)
  /\ clock (snd (save_tweets_to_file tweets w)) = clock w
  /\ ticks (snd (save_tweets_to_file tweets w)) = S (ticks w).
Proof.
  intros Hpart <-.
  rewrite (save_tweets_to_file_readable tweets w P Hpart).
  cbn [snd clock ticks]. split; [|split; reflexivity].
  unfold partition, tweets_filename. cbn [files].
  rewrite lookup_insert_eq. reflexivity.
Qed.

(** C4. Two calls on the same day, the first with [A] and the second with
    [B], on a partition that holds [P] and can be read: afterwards the
    partition of that day holds [P], then [A], then [B], each in its own
    order. *)
Theorem save_tweets_to_file_twice w day P A B :
  partition w day = Some P ->
  strftime_Ymd (clock w (ticks w)) = day ->
  strftime_Ymd (clock w (S (ticks w))) = day ->
  partition (snd (save_tweets_to_file B (snd (save_tweets_to_file A w)))) day
  = Some (P ++ A ++ B).
Proof.
  intros Hpart Hfirst Hsecond.
  destruct (save_tweets_to_file_partition A w day P Hpart Hfirst)
    as (HpartA & Hclock & Hticks).
  destruct (save_tweets_to_file_partition B (snd (save_tweets_to_file A w)) day (P ++ A) HpartA)
    as (HpartB & _).
  - rewrite Hclock, Hticks. exact Hsecond.
  - rewrite HpartB, <- app_assoc. reflexivity.
Qed.

Lemma save_tweets_to_file_twice_witness :
  partition (snd (save_tweets_to_file [ex_record2]
                    (snd (save_tweets_to_file [ex_record] ex_world)))) "20240101"
  = Some ([] ++ [ex_record] ++ [ex_record2]).
Proof.
  apply (save_tweets_to_file_twice ex_world "20240101" [] [ex_record] [ex_record2]).
  - reflexivity.
  - reflexivity.
  - reflexivity.
Defined.

(** C5, as the code has it.  [save_tweets_to_file] has no [return]
    statement: its value is [None] for every sequence of records and in every
    world.  The number of records written shows only in the log line of a
    successful call, which comes after the partition was rewritten. *)
Theorem save_tweets_to_file_returns_none tweets w :
  fst (save_tweets_to_file tweets w) = Ok PNone
  /\ (forall P,
        partition w (strftime_Ymd (clock w (ticks w))) = Some P ->
        partition (snd (save_tweets_to_file tweets w)) (strftime_Ymd (clock w (ticks w)))
        = Some (P ++ tweets)
        /\ log (snd (save_tweets_to_file tweets w))
           = log w ++ [(INFO, MsgSaved (length tweets) (tweets_filename (clock w (ticks w))))]).
Proof.
  split; [apply save_tweets_to_file_value|].
  intros P Hpart. split.
  - apply (save_tweets_to_file_partition tweets w _ P Hpart). reflexivity.
  - rewrite (save_tweets_to_file_readable tweets w P Hpart). reflexivity.
Qed.

Lemma save_tweets_to_file_returns_none_witness :
  log (snd (save_tweets_to_file [ex_record] ex_world))
  = [(INFO, MsgSaved 1 "tweets_20240101.json")].
Proof.
  apply (proj2 (save_tweets_to_file_returns_none [ex_record] ex_world) []).
  reflexivity.
Defined.

(** C5 fails on a call that writes one record: the record is in the
    partition afterwards, and the value of the call is [None], not 1. *)
Lemma save_one_record_returns_none :
  partition (snd (save_tweets_to_file [ex_record] ex_world)) "20240101" = Some [ex_record]
  /\ fst (save_tweets_to_file [ex_record] ex_world) = Ok PNone
  /\ fst (save_tweets_to_file [ex_record] ex_world) <> Ok (PInt 1).
Proof.
  split; [reflexivity|]. split; [reflexivity | discriminate].
Qed.

(** ** Claims about webhook_handler *)

(** A request that the check turns away is answered 401 before its body is
    looked at. *)
Lemma webhook_handler_unauthorized dep API_KEY req w :
  fst (verify_webhook_request dep API_KEY req) = false ->
  webhook_handler dep API_KEY req w
  = (Ok (PDict [("error", PStr "Unauthorized")], 401),
     note WARNING (MsgUnauthorized (snd (verify_webhook_request dep API_KEY req))) w).
Proof.
  unfold webhook_handler, try_except.
  destruct (verify_webhook_request dep API_KEY req) as [is_valid reason].
  cbn [fst snd]. intros ->. reflexivity.
Qed.

(** A verified request for which [get_json()] returns a false value, [None]
    among them, is answered 400; nothing is normalised and nothing is
    written. *)
Lemma webhook_handler_no_json dep API_KEY req w v :
  fst (verify_webhook_request dep API_KEY req) = true ->
  get_json req = Ok v ->
  truthy v = false ->
  webhook_handler dep API_KEY req w
  = (Ok (PDict [("error", PStr "No JSON data provided")], 400), note WARNING MsgNoJson w).
Proof.
  unfold webhook_handler, try_except.
  destruct (verify_webhook_request dep API_KEY req) as [is_valid reason].
  cbn [fst]. intros -> -> Hfalse. unfold bind, lift. cbn. rewrite Hfalse. reflexivity.
Qed.

(** A verified request on which [get_json()] raises falls into the
    [except Exception] of the handler and is answered 500. *)
Lemma webhook_handler_get_json_raises dep API_KEY req w e :
  fst (verify_webhook_request dep API_KEY req) = true ->
  get_json req = Raise e ->
  exists body w',
    webhook_handler dep API_KEY req w = (Ok (body, 500), w')
    /\ py_getitem body "error" = Ok (PStr "Internal server error")
    /\ files w' = files w
    /\ log w' = log w ++ [(ERROR, MsgErrorHandler e)].
Proof.
  unfold webhook_handler, try_except.
  destruct (verify_webhook_request dep API_KEY req) as [is_valid reason].
  cbn [fst]. intros -> ->. unfold bind, lift. destruct dep; cbn; eauto 10.
Qed.

(** A verified request with a true body for which the normaliser returns no
    record is answered 200 with the no-tweets message; the body of the answer
    has no [tweets_count]. *)
Lemma webhook_handler_no_tweets dep API_KEY req w v :
  fst (verify_webhook_request dep API_KEY req) = true ->
  get_json req = Ok v ->
  truthy v = true ->
  entries v = [] ->
  exists body w',
    webhook_handler dep API_KEY req w = (Ok (body, 200), w')
    /\ py_getitem body "status" = Ok (PStr "success")
    /\ py_getitem body "message" = Ok (PStr "No tweets to process")
    /\ py_getitem body "tweets_count" = Raise KeyError.
Proof.
  unfold webhook_handler, try_except.
  destruct (verify_webhook_request dep API_KEY req) as [is_valid reason].
  cbn [fst]. intros -> -> Htrue Hnone.
  unfold bind, lift. cbn [negb]. rewrite Htrue. cbn [negb logger].
  match goal with |- context [process_tweet_data dep v ?w0] =>
    destruct (process_tweet_data_spec dep v w0) as (w1 & Hrun) end.
  rewrite Hnone in Hrun. cbn in Hrun.
  rewrite Hrun. destruct dep; cbn; eauto 10.
Qed.

Lemma verify_webhook_request_rejects dep API_KEY req :
  (forall k, headers req !! "X-API-Key" = Some k -> API_KEY <> Some k) ->
  fst (verify_webhook_request dep API_KEY req) = false.
Proof.
  intros Hdiffer.
  destruct (fst (verify_webhook_request dep API_KEY req)) eqn:Hverify; [|reflexivity].
  apply verify_webhook_request_true_iff in Hverify as (k & Hkey & _ & Hheader).
  destruct (Hdiffer k Hheader Hkey).
Qed.

(** C6, as the code has it.  A request without the [X-API-Key] header is
    answered 401, and so is one whose header differs from the configured
    secret.  A request whose header equals the (non-empty) secret and whose
    JSON body has no tweet entries is answered 200 when the body is a true
    value, with [status] and the message [No tweets to process] and without
    any [tweets_count]; when the body is a false value, the empty object
    among them, it is answered 400. *)
Theorem webhook_handler_auth_and_empty_batch dep API_KEY req w :
  (headers req !! "X-API-Key" = None ->
   status (fst (webhook_handler dep API_KEY req w)) = Some 401)
  /\ (forall k,
        headers req !! "X-API-Key" = Some k -> API_KEY <> Some k ->
        status (fst (webhook_handler dep API_KEY req w)) = Some 401)
  /\ (forall k v,
        headers req !! "X-API-Key" = Some k -> API_KEY = Some k -> k <> "" ->
        get_json req = Ok v -> entries v = [] ->
        (truthy v = true ->
         exists body w',
           webhook_handler dep API_KEY req w = (Ok (body, 200), w')
           /\ py_getitem body "status" = Ok (PStr "success")
           /\ py_getitem body "message" = Ok (PStr "No tweets to process")
           /\ py_getitem body "tweets_count" = Raise KeyError)
        /\ (truthy v = false ->
            status (fst (webhook_handler dep API_KEY req w)) = Some 400)).
Proof.
  split; [|split].
  - intros Hnone. rewrite webhook_handler_unauthorized; [reflexivity|].
    apply verify_webhook_request_rejects. intros k Hk. congruence.
  - intros k Hk Hne. rewrite webhook_handler_unauthorized; [reflexivity|].
    apply verify_webhook_request_rejects. intros k' Hk'. congruence.
  - intros k v Hk Hkey Hne Hjson Hnone.
    assert (Hverify : fst (verify_webhook_request dep API_KEY req) = true)
      by (apply verify_webhook_request_true_iff; eauto).
    split; intros Htruth.
    + apply (webhook_handler_no_tweets dep API_KEY req w v); assumption.
    + rewrite (webhook_handler_no_json dep API_KEY req w v); auto.
Qed.

Lemma webhook_handler_auth_and_empty_batch_witness :
  status (fst (webhook_handler Standalone (Some "secret123")
                 (ex_request None (Ok (ex_payload []))) ex_world)) = Some 401
  /\ status (fst (webhook_handler Standalone (Some "secret123")
                    (ex_request (Some "wrong") (Ok (ex_payload []))) ex_world)) = Some 401
  /\ exists body w',
       webhook_handler Standalone (Some "secret123")
         (ex_request (Some "secret123") (Ok (ex_payload []))) ex_world
       = (Ok (body, 200), w')
       /\ py_getitem body "status" = Ok (PStr "success")
       /\ py_getitem body "message" = Ok (PStr "No tweets to process")
       /\ py_getitem body "tweets_count" = Raise KeyError.
Proof.
  split; [|split].
  - apply (proj1 (webhook_handler_auth_and_empty_batch Standalone (Some "secret123")
                    (ex_request None (Ok (ex_payload []))) ex_world)).
    reflexivity.
  - apply (proj1 (proj2 (webhook_handler_auth_and_empty_batch Standalone (Some "secret123")
                           (ex_request (Some "wrong") (Ok (ex_payload []))) ex_world))
             "wrong").
    + reflexivity.
    + discriminate.
  - destruct (proj2 (proj2 (webhook_handler_auth_and_empty_batch Standalone
                              (Some "secret123")
                              (ex_request (Some "secret123") (Ok (ex_payload []))) ex_world))
                "secret123" (ex_payload [])) as [Htrue _].
    + reflexivity.
    + reflexivity.
    + discriminate.
    + reflexivity.
    + reflexivity.
    + apply Htrue. reflexivity.
Defined.

(** C6 fails on a verified request whose body is
    [{"rule_id": "r1", "rule_tag": "demo", "tweets": []}]: the answer is 200
    and its body has no [tweets_count], in both deployments; and on the
    verified request whose body is [{}], which is answered 400. *)
Lemma empty_batch_answer_has_no_count :
  fst (webhook_handler Standalone (Some "secret123")
         (ex_request (Some "secret123") (Ok (ex_payload []))) ex_world)
  = Ok (PDict [("status", PStr "success"); ("message", PStr "No tweets to process")], 200)
  /\ fst (webhook_handler Serverless (Some "secret123")
            (ex_request (Some "secret123") (Ok (ex_payload []))) ex_world)
     = Ok (PDict [("status", PStr "success"); ("message", PStr "No tweets to process");
                  ("timestamp", PStr "2024-01-01T12:00:00")], 200)
  /\ py_getitem
       (PDict [("status", PStr "success"); ("message", PStr "No tweets to process")])
       "tweets_count" <> Ok (PInt 0)
  /\ py_getitem
       (PDict [("status", PStr "success"); ("message", PStr "No tweets to process");
               ("timestamp", PStr "2024-01-01T12:00:00")])
       "tweets_count" <> Ok (PInt 0)
  /\ status (fst (webhook_handler Standalone (Some "secret123")
                    (ex_request (Some "secret123") (Ok (PDict []))) ex_world)) = Some 400.
Proof.
  repeat split; try reflexivity; discriminate.
Qed.

(** C7 at a verified request on whose body [get_json()] raises, as Flask
    does with its default arguments for a body that it cannot parse as JSON:
    the [except Exception] of the handler answers 500, in both deployments,
    where the handler's own check for a missing body would have answered
    400. *)
Theorem unparsable_body_is_answered_500 :
  fst (webhook_handler Standalone (Some "secret123")
         (ex_request (Some "secret123") (Raise HTTPException)) ex_world)
  = Ok (PDict [("error", PStr "Internal server error")], 500)
  /\ fst (webhook_handler Serverless (Some "secret123")
            (ex_request (Some "secret123") (Raise HTTPException)) ex_world)
     = Ok (PDict [("error", PStr "Internal server error");
                  ("timestamp", PStr "2024-01-01T12:00:00")], 500)
  /\ status (fst (webhook_handler Standalone (Some "secret123")
                    (ex_request (Some "secret123") (Ok PNone)) ex_world)) = Some 400.
Proof.
  repeat split; reflexivity.
Qed.

(** * Further properties *)

(** ** What an action leaves alone *)

Section Keeps.
Context {B : Type} (part : world -> B).

Lemma keeps_ret {A} (a : A) : keeps part (ret a).
Proof. intros w. reflexivity. Qed.

Lemma keeps_lift {A} (r : result A) : keeps part (lift r).
Proof. intros w. reflexivity. Qed.

Lemma keeps_bind {A C} (m : M A) (k : A -> M C) :
  keeps part m -> (forall a, keeps part (k a)) -> keeps part (bind m k).
Proof.
  intros Hm Hk w. unfold bind. specialize (Hm w).
  destruct (m w) as [[a|e] w1]; cbn in *; [|exact Hm].
  rewrite (Hk a w1). exact Hm.
Qed.

Lemma keeps_try_except {A} (body : M A) (handler : exn -> M A) :
  keeps part body -> (forall e, keeps part (handler e)) ->
  keeps part (try_except body handler).
Proof.
  intros Hbody Hhandler w. unfold try_except. specialize (Hbody w).
  destruct (body w) as [[a|e] w1]; cbn in *; [exact Hbody|].
  rewrite (Hhandler e w1). exact Hbody.
Qed.

Lemma keeps_for_each {A C} (body : C -> A -> M C) (items : list A) :
  (forall acc x, keeps part (body acc x)) ->
  forall acc, keeps part (for_each body items acc).
Proof.
  intros Hbody. induction items as [|x items IH]; intros acc; cbn.
  - apply keeps_ret.
  - apply keeps_bind; [apply Hbody | exact IH].
Qed.
End Keeps.

Lemma logger_keeps_files lv msg : keeps files (logger lv msg).
Proof. intros w. reflexivity. Qed.

Lemma logger_keeps_ticks lv msg : keeps ticks (logger lv msg).
Proof. intros w. reflexivity. Qed.

Lemma logger_keeps_clock lv msg : keeps clock (logger lv msg).
Proof. intros w. reflexivity. Qed.

Lemma datetime_now_keeps_files : keeps files datetime_now.
Proof. intros w. reflexivity. Qed.

Lemma datetime_now_keeps_clock : keeps clock datetime_now.
Proof. intros w. reflexivity. Qed.

Lemma os_path_exists_keeps {B} (part : world -> B) filename :
  keeps part (os_path_exists filename).
Proof. intros w. reflexivity. Qed.

Lemma json_load_keeps {B} (part : world -> B) filename :
  keeps part (json_load filename).
Proof.
  intros w. unfold json_load. destruct (files w !! filename) as [[v|]|]; reflexivity.
Qed.

Ltac keeps_step :=
  first
    [ apply keeps_ret | apply keeps_lift
    | apply logger_keeps_files | apply logger_keeps_ticks | apply logger_keeps_clock
    | apply datetime_now_keeps_files | apply datetime_now_keeps_clock
    | apply os_path_exists_keeps | apply json_load_keeps
    | apply keeps_bind; [|intros ?]
    | apply keeps_try_except; [|intros ?]
    | apply keeps_for_each; intros ? ? ].

Lemma tweet_info_keeps_files dep rid rtag tweet :
  keeps files (tweet_info dep rid rtag tweet).
Proof. unfold tweet_info. repeat keeps_step. destruct dep; repeat keeps_step. Qed.

Lemma tweet_info_keeps_clock dep rid rtag tweet :
  keeps clock (tweet_info dep rid rtag tweet).
Proof. unfold tweet_info. repeat keeps_step. destruct dep; repeat keeps_step. Qed.

Lemma process_tweet_data_keeps_files dep webhook_data :
  keeps files (process_tweet_data dep webhook_data).
Proof.
  unfold process_tweet_data, loop_body.
  repeat first [apply tweet_info_keeps_files | keeps_step].
Qed.

Lemma process_tweet_data_keeps_clock dep webhook_data :
  keeps clock (process_tweet_data dep webhook_data).
Proof.
  unfold process_tweet_data, loop_body.
  repeat first [apply tweet_info_keeps_clock | keeps_step].
Qed.

Lemma process_tweet_data_standalone_keeps_ticks webhook_data :
  keeps ticks (process_tweet_data Standalone webhook_data).
Proof.
  unfold process_tweet_data, loop_body, tweet_info.
  repeat keeps_step.
Qed.

(** ** More on save_tweets_to_file *)

(** One call on a partition that cannot be read. *)
Lemma save_tweets_to_file_unreadable tweets w :
  partition w (strftime_Ymd (clock w (ticks w))) = None ->
  exists e,
    save_tweets_to_file tweets w
    = (Ok PNone,
       {| files := files w;
          log := log w ++ [(ERROR, MsgErrorSaving e)];
          clock := clock w;
          ticks := S (ticks w) |}).
Proof.
  unfold partition, save_tweets_to_file, try_except, bind, datetime_now,
    os_path_exists, json_load, json_dump, logger, lift, ret, tweets_filename.
  cbv beta iota zeta. cbn [files log clock ticks].
  set (filename := "tweets_" +:+ strftime_Ymd (clock w (ticks w)) +:+ ".json").
  destruct (files w !! filename) as [[v|]|] eqn:Hfile; [ | | discriminate].
  - rewrite bool_decide_eq_true_2 by eauto.
    cbn [files log clock ticks]. rewrite Hfile.
    destruct v as [ | | | | |l| ]; try discriminate; intros _; cbn; eauto.
  - intros _. rewrite bool_decide_eq_true_2 by eauto.
    cbn [files log clock ticks]. rewrite Hfile. cbn. eauto.
Qed.

Lemma partition_cases w day :
  (exists P, partition w day = Some P) \/ partition w day = None.
Proof. destruct (partition w day); eauto. Qed.

(** The call reads the clock once and leaves the clock itself alone. *)
Lemma save_tweets_to_file_clock tweets w :
  clock (snd (save_tweets_to_file tweets w)) = clock w
  /\ ticks (snd (save_tweets_to_file tweets w)) = S (ticks w).
Proof.
  destruct (partition_cases w (strftime_Ymd (clock w (ticks w)))) as [[P HP] | Hnone].
  - rewrite (save_tweets_to_file_readable tweets w P HP). split; reflexivity.
  - destruct (save_tweets_to_file_unreadable tweets w Hnone) as (e & ->).
    split; reflexivity.
Qed.

(** Only the file of the day can change. *)
Lemma save_tweets_to_file_other_files tweets w filename :
  filename <> tweets_filename (clock w (ticks w)) ->
  files (snd (save_tweets_to_file tweets w)) !! filename = files w !! filename.
Proof.
  intros Hother.
  destruct (partition_cases w (strftime_Ymd (clock w (ticks w)))) as [[P HP] | Hnone].
  - rewrite (save_tweets_to_file_readable tweets w P HP). cbn [snd files].
    apply lookup_insert_ne. congruence.
  - destruct (save_tweets_to_file_unreadable tweets w Hnone) as (e & ->).
    reflexivity.
Qed.

(** ** More on webhook_handler *)

Lemma bind_lift_ok {A C} (a : A) (k : A -> M C) w :
  bind (lift (Ok a)) k w = k a w.
Proof. reflexivity. Qed.

Lemma bind_logger {C} lv msg (k : unit -> M C) w :
  bind (logger lv msg) k w = k tt (note lv msg w).
Proof. reflexivity. Qed.

Lemma bind_run {A C} (m : M A) (k : A -> M C) w a w1 :
  m w = (Ok a, w1) -> bind m k w = k a w1.
Proof. intros Hrun. unfold bind. rewrite Hrun. reflexivity. Qed.

(** The answer to a verified request from whose body the normaliser made at
    least one record, in [monitor.py]. *)
Lemma webhook_handler_standalone_processed API_KEY req w v out w1 :
  fst (verify_webhook_request Standalone API_KEY req) = true ->
  get_json req = Ok v ->
  truthy v = true ->
  process_tweet_data Standalone v (note INFO MsgReceivedValid w) = (Ok out, w1) ->
  out <> [] ->
  webhook_handler Standalone API_KEY req w
  = (Ok (PDict [ ("status", PStr "success");
                 ("message", PStr ("Processed " +:+ pretty (length out) +:+ " tweets"));
                 ("tweets_count", PInt (Z.of_nat (length out))) ], 200),
     snd (save_tweets_to_file out w1)).
Proof.
  unfold webhook_handler, try_except.
  destruct (verify_webhook_request Standalone API_KEY req) as [is_valid reason].
  cbn [fst]. intros -> -> Htrue Hrun Hout.
  cbn [negb]. rewrite bind_lift_ok, Htrue. cbn [negb].
  rewrite bind_logger, (bind_run _ _ _ _ _ Hrun).
  destruct out as [|r out]; [congruence|]. cbn [truthy].
  pose proof (save_tweets_to_file_value (r :: out) w1) as Hvalue.
  destruct (save_tweets_to_file (r :: out) w1) as [[x|e] w2] eqn:Hsave;
    cbn in Hvalue; [|discriminate].
  unfold bind at 1. unfold bind at 1. rewrite Hsave. reflexivity.
Qed.

(** The same in [api/webhook.py], which writes no file and stamps the
    answer. *)
Lemma webhook_handler_serverless_processed API_KEY req w v out w1 :
  fst (verify_webhook_request Serverless API_KEY req) = true ->
  get_json req = Ok v ->
  truthy v = true ->
  process_tweet_data Serverless v (note INFO MsgReceivedValid w) = (Ok out, w1) ->
  out <> [] ->
  webhook_handler Serverless API_KEY req w
  = (Ok (PDict [ ("status", PStr "success");
                 ("message", PStr ("Processed " +:+ pretty (length out) +:+ " tweets"));
                 ("tweets_count", PInt (Z.of_nat (length out)));
                 ("timestamp", PStr (isoformat (clock w1 (ticks w1)))) ], 200),
     {| files := files w1;
        log := log w1 ++ [(INFO, MsgSuccessfullyProcessed (length out))];
        clock := clock w1;
        ticks := S (ticks w1) |}).
Proof.
  unfold webhook_handler, try_except.
  destruct (verify_webhook_request Serverless API_KEY req) as [is_valid reason].
  cbn [fst]. intros -> -> Htrue Hrun Hout.
  cbn [negb]. rewrite bind_lift_ok, Htrue. cbn [negb].
  rewrite bind_logger, (bind_run _ _ _ _ _ Hrun).
  destruct out as [|r out]; [congruence|]. cbn [truthy].
  reflexivity.
Qed.

(** ** Further properties of process_tweet_data *)

(** X1. The entries that make [process_tweet_data] give up are exactly
    these: an entry that is not a dict, an entry whose [author] is present
    and is not a dict (a [null] author among them), and an entry whose [text]
    is present and is neither a string nor a list (a [null] text among them).
    Every other entry is handled, whatever its other fields hold. *)
Theorem entry_raises_exactly dep tweet :
  entry_raises dep tweet
  <-> ~ (exists d,
           tweet = PDict d
           /\ (dict_lookup "author" d = None
               \/ exists a, dict_lookup "author" d = Some (PDict a))
           /\ (dict_lookup "text" d = None
               \/ (exists s, dict_lookup "text" d = Some (PStr s))
               \/ exists l, dict_lookup "text" d = Some (PList l))).
Proof.
  rewrite entry_raises_iff. unfold well_formed_entry, dict_get. split.
  - intros Hbad (d & -> & Hauthor & Htext). revert Hbad.
    destruct Hauthor as [-> | (a & ->)];
      destruct Htext as [-> | [(s & ->) | (l & ->)]]; discriminate.
  - intros Hnot. destruct tweet as [ | | | | | |d]; try reflexivity.
    destruct (dict_lookup "author" d) as [[ | | | | | |a]|] eqn:Hauthor; try reflexivity;
      destruct (dict_lookup "text" d) as [[ | | | |s|l| ]|] eqn:Htext; try reflexivity;
      exfalso; apply Hnot; exists d; eauto 10.
Qed.

(** X2. In a valid payload, the record of an entry that has none of the
    keys [text], [created_at], [retweet_count], [like_count] and
    [reply_count] holds the empty text, no creation time and three zero
    counters. *)
Theorem missing_fields_get_defaults dep webhook_data tweets i d w :
  valid_payload webhook_data tweets ->
  tweets !! i = Some (PDict d) ->
  dict_lookup "text" d = None ->
  dict_lookup "created_at" d = None ->
  dict_lookup "retweet_count" d = None ->
  dict_lookup "like_count" d = None ->
  dict_lookup "reply_count" d = None ->
  exists out w' r,
    process_tweet_data dep webhook_data w = (Ok out, w')
    /\ out !! i = Some r
    /\ py_getitem r "text" = Ok (PStr "")
    /\ py_getitem r "created_at" = Ok PNone
    /\ py_getitem r "metrics"
       = Ok (PDict [("retweet_count", PInt 0); ("like_count", PInt 0);
                    ("reply_count", PInt 0)]).
Proof.
  intros Hvalid Hi Htext Hcreated Hretweet Hlike Hreply.
  destruct (process_tweet_data_valid dep webhook_data tweets w Hvalid) as (w' & Hrun).
  eexists; exists w'; eexists. split; [exact Hrun|].
  split; [apply normalized_batch_lookup; exact Hi|].
  unfold normalized, dict_get; cbn.
  rewrite Htext, Hcreated, Hretweet, Hlike, Hreply. auto.
Qed.

Lemma missing_fields_get_defaults_witness :
  exists out w' r,
    process_tweet_data Standalone (ex_payload [PDict [("id", PStr "9")]]) ex_world
    = (Ok out, w')
    /\ out !! 0 = Some r
    /\ py_getitem r "text" = Ok (PStr "")
    /\ py_getitem r "created_at" = Ok PNone
    /\ py_getitem r "metrics"
       = Ok (PDict [("retweet_count", PInt 0); ("like_count", PInt 0);
                    ("reply_count", PInt 0)]).
Proof.
  apply (missing_fields_get_defaults Standalone (ex_payload [PDict [("id", PStr "9")]])
           [PDict [("id", PStr "9")]] 0 [("id", PStr "9")] ex_world);
    try reflexivity.
  split; reflexivity.
Defined.

(** X3. A default stands in for a missing key only.  In a valid payload,
    a counter or a creation time that the entry gives is copied as it is,
    whatever it is: a [null] counter stays [None] and is not turned into 0,
    and a counter that is a string stays that string. *)
Theorem given_fields_are_copied dep webhook_data tweets i d w :
  valid_payload webhook_data tweets ->
  tweets !! i = Some (PDict d) ->
  exists out w' r metrics,
    process_tweet_data dep webhook_data w = (Ok out, w')
    /\ out !! i = Some r
    /\ py_getitem r "metrics" = Ok metrics
    /\ (forall v, dict_lookup "id" d = Some v -> py_getitem r "id" = Ok v)
    /\ (forall v, dict_lookup "text" d = Some v -> py_getitem r "text" = Ok v)
    /\ (forall v, dict_lookup "created_at" d = Some v -> py_getitem r "created_at" = Ok v)
    /\ (forall v, dict_lookup "retweet_count" d = Some v ->
                  py_getitem metrics "retweet_count" = Ok v)
    /\ (forall v, dict_lookup "like_count" d = Some v ->
                  py_getitem metrics "like_count" = Ok v)
    /\ (forall v, dict_lookup "reply_count" d = Some v ->
                  py_getitem metrics "reply_count" = Ok v).
Proof.
  intros Hvalid Hi.
  destruct (process_tweet_data_valid dep webhook_data tweets w Hvalid) as (w' & Hrun).
  eexists; exists w'; eexists; eexists. split; [exact Hrun|].
  split; [apply normalized_batch_lookup; exact Hi|].
  unfold normalized, dict_get; cbn.
  split; [reflexivity|].
  repeat split; intros v ->; reflexivity.
Qed.

Lemma given_fields_are_copied_witness :
  exists out w' r metrics,
    process_tweet_data Standalone
      (ex_payload [PDict [("id", PInt 7); ("retweet_count", PNone)]]) ex_world
    = (Ok out, w')
    /\ out !! 0 = Some r
    /\ py_getitem r "metrics" = Ok metrics
    /\ py_getitem r "id" = Ok (PInt 7)
    /\ py_getitem metrics "retweet_count" = Ok PNone.
Proof.
  destruct (given_fields_are_copied Standalone
              (ex_payload [PDict [("id", PInt 7); ("retweet_count", PNone)]])
              [PDict [("id", PInt 7); ("retweet_count", PNone)]] 0
              [("id", PInt 7); ("retweet_count", PNone)] ex_world)
    as (out & w' & r & metrics & Hrun & Hr & Hmetrics & Hid & _ & _ & Hretweet & _).
  - split; reflexivity.
  - reflexivity.
  - exists out, w', r, metrics. repeat split; auto.
Defined.

Lemma same_files_but_log_of_eq w w' :
  files w' = files w -> same_files_but_log w w'.
Proof. intros Heq filename _. rewrite Heq. reflexivity. Qed.

(** X4. [process_tweet_data] changes no file but the log file, to which
    [monitor.py] appends the lines it logs, so the partition of every day is
    as before; in [api/webhook.py] it changes no file at all.  It does not
    set the clock, on any input, and in [monitor.py] it does not read the
    clock either. *)
Theorem process_tweet_data_keeps_data_files dep webhook_data w :
  same_files_but_log w (snd (process_tweet_data dep webhook_data w))
  /\ (forall day,
        partition (snd (process_tweet_data dep webhook_data w)) day = partition w day)
  /\ files (snd (process_tweet_data Serverless webhook_data w)) = files w
  /\ clock (snd (process_tweet_data dep webhook_data w)) = clock w
  /\ ticks (snd (process_tweet_data Standalone webhook_data w)) = ticks w.
Proof.
  split; [apply same_files_but_log_of_eq, process_tweet_data_keeps_files|].
  split.
  { intros day. unfold partition.
    rewrite (process_tweet_data_keeps_files dep webhook_data w). reflexivity. }
  split; [apply process_tweet_data_keeps_files|].
  split; [apply process_tweet_data_keeps_clock|].
  apply process_tweet_data_standalone_keeps_ticks.
Qed.

(** ** Further properties of save_tweets_to_file *)

Lemma string_length_append (s t : string) :
  String.length (s +:+ t) = String.length s + String.length t.
Proof.
  induction s as [|c s IH]; [reflexivity|].
  change (S (String.length (s +:+ t)) = S (String.length s + String.length t)).
  rewrite IH. reflexivity.
Qed.

Lemma string_append_inj_r (s1 s2 t : string) :
  s1 +:+ t = s2 +:+ t -> s1 = s2.
Proof.
  revert s2. induction s1 as [|c s1 IH]; intros [|c2 s2] Heq.
  - reflexivity.
  - apply (f_equal String.length) in Heq.
    rewrite !string_length_append in Heq. cbn in Heq. lia.
  - apply (f_equal String.length) in Heq.
    rewrite !string_length_append in Heq. cbn in Heq. lia.
  - change (String c (s1 +:+ t) = String c2 (s2 +:+ t)) in Heq.
    injection Heq as -> Heq. f_equal. apply IH. exact Heq.
Qed.

(** Two days have two files. *)
Lemma tweets_filename_inj now1 now2 :
  tweets_filename now1 = tweets_filename now2 ->
  strftime_Ymd now1 = strftime_Ymd now2.
Proof.
  unfold tweets_filename. intros Heq.
  apply (inj (String.app "tweets_")) in Heq.
  apply string_append_inj_r in Heq. exact Heq.
Qed.

(** The [Saved] line is logged on a partition that could be read, and on no
    other. *)
Lemma save_tweets_to_file_saved tweets w n filename :
  last_logged (snd (save_tweets_to_file tweets w)) = Some (INFO, MsgSaved n filename) ->
  exists P, partition w (strftime_Ymd (clock w (ticks w))) = Some P.
Proof.
  intros Hsaved.
  destruct (partition_cases w (strftime_Ymd (clock w (ticks w)))) as [HP | Hnone];
    [exact HP|].
  destruct (save_tweets_to_file_unreadable tweets w Hnone) as (e & Hrun).
  rewrite Hrun in Hsaved. unfold last_logged in Hsaved. cbn [snd log] in Hsaved.
  rewrite last_snoc in Hsaved. discriminate.
Qed.

(** X5. When the file of the day cannot be read as a JSON array (it is not
    JSON, or it holds a JSON value that is not a list), the call fails before
    it opens the file for writing: every file but the log file is as before,
    so the partition stays unreadable and the batch is lost; the call still
    returns [None], and the only sign of the failure is one ERROR line in the
    log. *)
Theorem save_tweets_to_file_unreadable_partition tweets w :
  partition w (strftime_Ymd (clock w (ticks w))) = None ->
  fst (save_tweets_to_file tweets w) = Ok PNone
  /\ same_files_but_log w (snd (save_tweets_to_file tweets w))
  /\ partition (snd (save_tweets_to_file tweets w)) (strftime_Ymd (clock w (ticks w))) = None
  /\ exists e,
       log (snd (save_tweets_to_file tweets w)) = log w ++ [(ERROR, MsgErrorSaving e)].
Proof.
  intros Hnone.
  destruct (save_tweets_to_file_unreadable tweets w Hnone) as (e & Hrun).
  rewrite Hrun. cbn [fst snd files log].
  split; [reflexivity|].
  split; [apply same_files_but_log_of_eq; reflexivity|].
  split; [exact Hnone | eauto].
Qed.

Lemma save_tweets_to_file_unreadable_partition_witness :
  partition (snd (save_tweets_to_file [ex_record] ex_world_garbled)) "20240101" = None
  /\ exists e,
       log (snd (save_tweets_to_file [ex_record] ex_world_garbled))
       = log ex_world_garbled ++ [(ERROR, MsgErrorSaving e)].
Proof.
  destruct (save_tweets_to_file_unreadable_partition [ex_record] ex_world_garbled)
    as (_ & _ & Hpart & Hlog).
  - reflexivity.
  - split; [exact Hpart | exact Hlog].
Defined.

(** X6. A call changes the partition of the day on which it runs and no
    other: the partition of every other day, and every file that is neither
    the file of the day nor the log file, is as before, whether the write
    went through or not. *)
Theorem save_tweets_to_file_other_days tweets w :
  (forall filename,
     filename <> tweets_filename (clock w (ticks w)) ->
     filename <> LOG_FILE ->
     files (snd (save_tweets_to_file tweets w)) !! filename = files w !! filename)
  /\ (forall day,
        day <> strftime_Ymd (clock w (ticks w)) ->
        partition (snd (save_tweets_to_file tweets w)) day = partition w day).
Proof.
  split.
  - intros filename Hother _. apply save_tweets_to_file_other_files. exact Hother.
  - intros day Hday. unfold partition.
    rewrite save_tweets_to_file_other_files; [reflexivity|].
    intros Heq. apply Hday.
    apply (tweets_filename_inj {| strftime_Ymd := day; isoformat := "" |}).
    exact Heq.
Qed.

Lemma save_tweets_to_file_other_days_witness :
  partition (snd (save_tweets_to_file [ex_record2] ex_world_yesterday)) "20231231"
  = partition ex_world_yesterday "20231231".
Proof.
  apply (proj2 (save_tweets_to_file_other_days [ex_record2] ex_world_yesterday)).
  discriminate.
Defined.

(** X7. The first call of a day, when the file of the day does not exist
    and the write goes through (the call ends with its [Saved] line), creates
    the file, and the file holds the batch and nothing else; this is so for
    the empty batch too, which leaves a file holding the empty array. *)
Theorem save_tweets_to_file_creates_file tweets w :
  files w !! tweets_filename (clock w (ticks w)) = None ->
  last_logged (snd (save_tweets_to_file tweets w))
  = Some (INFO, MsgSaved (length tweets) (tweets_filename (clock w (ticks w)))) ->
  files (snd (save_tweets_to_file tweets w)) !! tweets_filename (clock w (ticks w))
  = Some (JsonFile (PList tweets)).
Proof.
  intros Hmissing _.
  rewrite (save_tweets_to_file_readable tweets w []).
  - cbn [snd files]. rewrite lookup_insert_eq. reflexivity.
  - unfold partition. unfold tweets_filename in Hmissing. rewrite Hmissing. reflexivity.
Qed.

Lemma save_tweets_to_file_creates_file_witness :
  files (snd (save_tweets_to_file [] ex_world)) !! "tweets_20240101.json"
  = Some (JsonFile (PList [])).
Proof.
  apply (save_tweets_to_file_creates_file [] ex_world).
  - reflexivity.
  - reflexivity.
Defined.

(** ** Further properties of webhook_handler *)

Lemma valid_payload_truthy webhook_data tweets :
  valid_payload webhook_data tweets -> tweets <> [] -> truthy webhook_data = true.
Proof.
  intros [Hget _] Hsome.
  destruct webhook_data as [ | | | | | |p]; try discriminate.
  destruct p as [|item p]; [|reflexivity].
  cbn in Hget. injection Hget as <-. congruence.
Qed.

Lemma normalized_batch_nonempty dep rid rtag clk t tweets :
  tweets <> [] -> normalized_batch dep rid rtag clk t tweets <> [].
Proof. destruct tweets; [congruence | discriminate]. Qed.

(** The run of the normaliser inside the handler, on a valid payload. *)
Lemma process_tweet_data_in_handler dep webhook_data tweets w :
  valid_payload webhook_data tweets ->
  exists w1,
    process_tweet_data dep webhook_data (note INFO MsgReceivedValid w)
    = (Ok (normalized_batch dep (payload_field "rule_id" webhook_data)
             (payload_field "rule_tag" webhook_data) (clock w) (ticks w) tweets), w1)
    /\ files w1 = files w
    /\ clock w1 = clock w.
Proof.
  intros Hvalid.
  destruct (process_tweet_data_valid dep webhook_data tweets
              (note INFO MsgReceivedValid w) Hvalid) as (w1 & Hrun).
  exists w1. split; [exact Hrun|].
  pose proof (process_tweet_data_keeps_files dep webhook_data
                (note INFO MsgReceivedValid w)) as Hfiles.
  pose proof (process_tweet_data_keeps_clock dep webhook_data
                (note INFO MsgReceivedValid w)) as Hclock.
  rewrite Hrun in Hfiles, Hclock. auto.
Qed.

(** The answer when the normaliser hands back the empty list. *)
Lemma webhook_handler_empty_result dep API_KEY req w v w1 :
  fst (verify_webhook_request dep API_KEY req) = true ->
  get_json req = Ok v ->
  truthy v = true ->
  process_tweet_data dep v (note INFO MsgReceivedValid w) = (Ok [], w1) ->
  exists body w2,
    webhook_handler dep API_KEY req w = (Ok (body, 200), w2)
    /\ py_getitem body "status" = Ok (PStr "success")
    /\ py_getitem body "message" = Ok (PStr "No tweets to process")
    /\ py_getitem body "tweets_count" = Raise KeyError
    /\ files w2 = files w1.
Proof.
  unfold webhook_handler, try_except.
  destruct (verify_webhook_request dep API_KEY req) as [is_valid reason].
  cbn [fst]. intros -> -> Htrue Hrun.
  cbn [negb]. rewrite bind_lift_ok, Htrue. cbn [negb].
  rewrite bind_logger, (bind_run _ _ _ _ _ Hrun). cbn [truthy].
  destruct dep; cbn; eauto 10.
Qed.

(** X8. A verified request whose body is a valid payload with N >= 1
    entries is answered 200 with [tweets_count] N and the message
    [Processed N tweets], in both deployments, and in [monitor.py] whether or
    not the batch could be written to the file of the day. *)
Theorem webhook_handler_counts_valid_batch dep API_KEY req w webhook_data tweets :
  fst (verify_webhook_request dep API_KEY req) = true ->
  get_json req = Ok webhook_data ->
  valid_payload webhook_data tweets ->
  tweets <> [] ->
  exists body w',
    webhook_handler dep API_KEY req w = (Ok (body, 200), w')
    /\ py_getitem body "status" = Ok (PStr "success")
    /\ py_getitem body "tweets_count" = Ok (PInt (Z.of_nat (length tweets)))
    /\ py_getitem body "message"
       = Ok (PStr ("Processed " +:+ pretty (length tweets) +:+ " tweets")).
Proof.
  intros Hverify Hjson Hvalid Hsome.
  destruct (process_tweet_data_in_handler dep webhook_data tweets w Hvalid)
    as (w1 & Hrun & _).
  pose proof (valid_payload_truthy _ _ Hvalid Hsome) as Htrue.
  pose proof (normalized_batch_nonempty dep (payload_field "rule_id" webhook_data)
                (payload_field "rule_tag" webhook_data) (clock w) (ticks w) tweets Hsome)
    as Hout.
  destruct dep.
  - rewrite (webhook_handler_standalone_processed _ _ _ _ _ _ Hverify Hjson Htrue Hrun Hout).
    rewrite normalized_batch_length. eauto 10.
  - rewrite (webhook_handler_serverless_processed _ _ _ _ _ _ Hverify Hjson Htrue Hrun Hout).
    rewrite normalized_batch_length. eauto 10.
Qed.

Lemma webhook_handler_counts_valid_batch_witness :
  exists body w',
    webhook_handler Serverless (Some "secret123")
      (ex_request (Some "secret123") (Ok (ex_payload [ex_tweet_bob; ex_tweet_no_author])))
      ex_world
    = (Ok (body, 200), w')
    /\ py_getitem body "status" = Ok (PStr "success")
    /\ py_getitem body "tweets_count" = Ok (PInt 2)
    /\ py_getitem body "message" = Ok (PStr "Processed 2 tweets").
Proof.
  apply (webhook_handler_counts_valid_batch Serverless (Some "secret123")
           (ex_request (Some "secret123") (Ok (ex_payload [ex_tweet_bob; ex_tweet_no_author])))
           ex_world (ex_payload [ex_tweet_bob; ex_tweet_no_author])
           [ex_tweet_bob; ex_tweet_no_author]).
  - reflexivity.
  - reflexivity.
  - split; reflexivity.
  - discriminate.
Defined.

Lemma normalized_batch_standalone rid rtag clk1 clk2 tweets : forall t1 t2,
  normalized_batch Standalone rid rtag clk1 t1 tweets
  = normalized_batch Standalone rid rtag clk2 t2 tweets.
Proof.
  induction tweets as [|tweet tweets IH]; intros t1 t2; cbn; [reflexivity|].
  f_equal. apply IH.
Qed.

Lemma partition_same_files w1 w2 day :
  files w1 = files w2 -> partition w1 day = partition w2 day.
Proof. unfold partition. intros ->. reflexivity. Qed.

(** The world after a verified request with a valid payload that is not
    empty, in [monitor.py]: the world after the call of
    [save_tweets_to_file] on the records, made in a world with the files and
    the clock of the start. *)
Lemma webhook_handler_standalone_valid API_KEY req w webhook_data tweets :
  fst (verify_webhook_request Standalone API_KEY req) = true ->
  get_json req = Ok webhook_data ->
  valid_payload webhook_data tweets ->
  tweets <> [] ->
  exists w1,
    snd (webhook_handler Standalone API_KEY req w)
    = snd (save_tweets_to_file
             (normalized_batch Standalone (payload_field "rule_id" webhook_data)
                (payload_field "rule_tag" webhook_data) (clock w) (ticks w) tweets) w1)
    /\ files w1 = files w /\ clock w1 = clock w /\ ticks w1 = ticks w.
Proof.
  intros Hverify Hjson Hvalid Hsome.
  destruct (process_tweet_data_in_handler Standalone webhook_data tweets w Hvalid)
    as (w1 & Hrun & Hfiles & Hclock).
  pose proof (process_tweet_data_standalone_keeps_ticks webhook_data
                (note INFO MsgReceivedValid w)) as Hticks.
  rewrite Hrun in Hticks. cbn in Hticks.
  exists w1.
  rewrite (webhook_handler_standalone_processed _ _ _ _ _ _ Hverify Hjson
             (valid_payload_truthy _ _ Hvalid Hsome) Hrun
             (normalized_batch_nonempty _ _ _ _ _ _ Hsome)).
  auto.
Qed.

(** X9. In [monitor.py], a verified request whose body is a valid payload
    with at least one entry appends the records of its entries, in the order
    of the entries, to the partition of the day, when that partition can be
    read and the write goes through (the last line of the log is the [Saved]
    line of the batch); what the partition held before stays in front. *)
Theorem webhook_handler_stores_valid_batch API_KEY req w webhook_data tweets P :
  fst (verify_webhook_request Standalone API_KEY req) = true ->
  get_json req = Ok webhook_data ->
  valid_payload webhook_data tweets ->
  tweets <> [] ->
  partition w (strftime_Ymd (clock w (ticks w))) = Some P ->
  last_logged (snd (webhook_handler Standalone API_KEY req w))
  = Some (INFO, MsgSaved (length tweets) (tweets_filename (clock w (ticks w)))) ->
  partition (snd (webhook_handler Standalone API_KEY req w))
    (strftime_Ymd (clock w (ticks w)))
  = Some (P ++ normalized_batch Standalone (payload_field "rule_id" webhook_data)
                 (payload_field "rule_tag" webhook_data) (clock w) (ticks w) tweets).
Proof.
  intros Hverify Hjson Hvalid Hsome Hpart _.
  destruct (webhook_handler_standalone_valid API_KEY req w webhook_data tweets
              Hverify Hjson Hvalid Hsome) as (w1 & -> & Hfiles & Hclock & Hticks).
  apply save_tweets_to_file_partition.
  - rewrite (partition_same_files w1 w _ Hfiles). exact Hpart.
  - rewrite Hclock, Hticks. reflexivity.
Qed.

Lemma webhook_handler_stores_valid_batch_witness :
  partition (snd (webhook_handler Standalone (Some "secret123")
                    (ex_request (Some "secret123") (Ok (ex_payload [ex_tweet_bob])))
                    ex_world)) "20240101"
  = Some [ex_record].
Proof.
  apply (webhook_handler_stores_valid_batch (Some "secret123")
           (ex_request (Some "secret123") (Ok (ex_payload [ex_tweet_bob])))
           ex_world (ex_payload [ex_tweet_bob]) [ex_tweet_bob] []).
  - reflexivity.
  - reflexivity.
  - split; reflexivity.
  - discriminate.
  - reflexivity.
  - reflexivity.
Defined.

(** X10. In [monitor.py], when the file of the day cannot be read as a JSON
    array, a verified request with a valid payload that is not empty is
    still answered 200 with the count of its entries, while the records are
    lost: every file but the log file is as before, and the partition of the
    day is as unreadable as it was. *)
Theorem webhook_handler_hides_failed_save API_KEY req w webhook_data tweets :
  fst (verify_webhook_request Standalone API_KEY req) = true ->
  get_json req = Ok webhook_data ->
  valid_payload webhook_data tweets ->
  tweets <> [] ->
  partition w (strftime_Ymd (clock w (ticks w))) = None ->
  fst (webhook_handler Standalone API_KEY req w)
  = Ok (PDict [ ("status", PStr "success");
                ("message", PStr ("Processed " +:+ pretty (length tweets) +:+ " tweets"));
                ("tweets_count", PInt (Z.of_nat (length tweets))) ], 200)
  /\ same_files_but_log w (snd (webhook_handler Standalone API_KEY req w))
  /\ partition (snd (webhook_handler Standalone API_KEY req w))
       (strftime_Ymd (clock w (ticks w))) = None.
Proof.
  intros Hverify Hjson Hvalid Hsome Hpart. split.
  - destruct (process_tweet_data_in_handler Standalone webhook_data tweets w Hvalid)
      as (w1 & Hrun & _).
    rewrite (webhook_handler_standalone_processed _ _ _ _ _ _ Hverify Hjson
               (valid_payload_truthy _ _ Hvalid Hsome) Hrun
               (normalized_batch_nonempty _ _ _ _ _ _ Hsome)).
    rewrite normalized_batch_length. reflexivity.
  - destruct (webhook_handler_standalone_valid API_KEY req w webhook_data tweets
                Hverify Hjson Hvalid Hsome) as (w1 & -> & Hfiles & Hclock & Hticks).
    destruct (save_tweets_to_file_unreadable
                (normalized_batch Standalone (payload_field "rule_id" webhook_data)
                   (payload_field "rule_tag" webhook_data) (clock w) (ticks w) tweets) w1)
      as (e & ->).
    + rewrite Hclock, Hticks, (partition_same_files w1 w _ Hfiles). exact Hpart.
    + cbn [snd]. split.
      * apply same_files_but_log_of_eq. exact Hfiles.
      * rewrite <- Hpart. apply partition_same_files. exact Hfiles.
Qed.

Lemma webhook_handler_hides_failed_save_witness :
  status (fst (webhook_handler Standalone (Some "secret123")
                 (ex_request (Some "secret123") (Ok (ex_payload [ex_tweet_bob])))
                 ex_world_garbled)) = Some 200
  /\ partition (snd (webhook_handler Standalone (Some "secret123")
                       (ex_request (Some "secret123") (Ok (ex_payload [ex_tweet_bob])))
                       ex_world_garbled)) "20240101" = None.
Proof.
  destruct (webhook_handler_hides_failed_save (Some "secret123")
              (ex_request (Some "secret123") (Ok (ex_payload [ex_tweet_bob])))
              ex_world_garbled (ex_payload [ex_tweet_bob]) [ex_tweet_bob])
    as (Hanswer & _ & Hpart).
  - reflexivity.
  - reflexivity.
  - split; reflexivity.
  - discriminate.
  - reflexivity.
  - split; [rewrite Hanswer; reflexivity | exact Hpart].
Defined.

(** X11. The service does not look for duplicates.  In [monitor.py], the
    same verified request with the same valid payload, handled twice on one
    day with both writes going through (each call ends with the [Saved] line
    of the batch), leaves its records twice in the partition of the day. *)
Theorem webhook_handler_keeps_duplicates API_KEY req w webhook_data tweets P :
  fst (verify_webhook_request Standalone API_KEY req) = true ->
  get_json req = Ok webhook_data ->
  valid_payload webhook_data tweets ->
  tweets <> [] ->
  partition w (strftime_Ymd (clock w (ticks w))) = Some P ->
  strftime_Ymd (clock w (S (ticks w))) = strftime_Ymd (clock w (ticks w)) ->
  last_logged (snd (webhook_handler Standalone API_KEY req w))
  = Some (INFO, MsgSaved (length tweets) (tweets_filename (clock w (ticks w)))) ->
  last_logged (snd (webhook_handler Standalone API_KEY req
                      (snd (webhook_handler Standalone API_KEY req w))))
  = Some (INFO, MsgSaved (length tweets) (tweets_filename (clock w (S (ticks w))))) ->
  partition
    (snd (webhook_handler Standalone API_KEY req
            (snd (webhook_handler Standalone API_KEY req w))))
    (strftime_Ymd (clock w (ticks w)))
  = Some (P ++ normalized_batch Standalone (payload_field "rule_id" webhook_data)
                 (payload_field "rule_tag" webhook_data) (clock w) (ticks w) tweets
            ++ normalized_batch Standalone (payload_field "rule_id" webhook_data)
                 (payload_field "rule_tag" webhook_data) (clock w) (ticks w) tweets).
Proof.
  intros Hverify Hjson Hvalid Hsome Hpart Hday _ _.
  destruct (webhook_handler_standalone_valid API_KEY req w webhook_data tweets
              Hverify Hjson Hvalid Hsome) as (w1 & Hfirst & Hfiles & Hclock & Hticks).
  set (records := normalized_batch Standalone (payload_field "rule_id" webhook_data)
                    (payload_field "rule_tag" webhook_data) (clock w) (ticks w) tweets) in *.
  destruct (save_tweets_to_file_partition records w1 (strftime_Ymd (clock w (ticks w))) P)
    as (Hpart1 & Hclock1 & Hticks1).
  { rewrite (partition_same_files w1 w _ Hfiles). exact Hpart. }
  { rewrite Hclock, Hticks. reflexivity. }
  rewrite <- Hfirst in Hpart1, Hclock1, Hticks1.
  set (w2 := snd (webhook_handler Standalone API_KEY req w)) in *.
  destruct (webhook_handler_standalone_valid API_KEY req w2 webhook_data tweets
              Hverify Hjson Hvalid Hsome) as (w3 & -> & Hfiles3 & Hclock3 & Hticks3).
  rewrite (normalized_batch_standalone _ _ (clock w2) (clock w) tweets (ticks w2) (ticks w)).
  fold records.
  destruct (save_tweets_to_file_partition records w3 (strftime_Ymd (clock w (ticks w)))
              (P ++ records)) as (Hpart3 & _).
  { rewrite (partition_same_files w3 w2 _ Hfiles3). exact Hpart1. }
  { rewrite Hclock3, Hticks3, Hclock1, Hticks1, Hclock, Hticks. exact Hday. }
  rewrite Hpart3, <- app_assoc. reflexivity.
Qed.

Lemma webhook_handler_keeps_duplicates_witness :
  partition
    (snd (webhook_handler Standalone (Some "secret123")
            (ex_request (Some "secret123") (Ok (ex_payload [ex_tweet_bob])))
            (snd (webhook_handler Standalone (Some "secret123")
                    (ex_request (Some "secret123") (Ok (ex_payload [ex_tweet_bob])))
                    ex_world))))
    "20240101"
  = Some [ex_record; ex_record].
Proof.
  apply (webhook_handler_keeps_duplicates (Some "secret123")
           (ex_request (Some "secret123") (Ok (ex_payload [ex_tweet_bob])))
           ex_world (ex_payload [ex_tweet_bob]) [ex_tweet_bob] []).
  - reflexivity.
  - reflexivity.
  - split; reflexivity.
  - discriminate.
  - reflexivity.
  - reflexivity.
  - reflexivity.
  - reflexivity.
Defined.

(** X12. A batch with a malformed entry is not rejected.  A verified
    request whose [tweets] list holds an entry on which the normaliser gives
    up is answered 200 with the message [No tweets to process] and without
    [tweets_count], as if the batch were empty, in both deployments; nothing
    is stored: every file but the log file is as before. *)
Theorem webhook_handler_malformed_batch dep API_KEY req w webhook_data tweets bad :
  fst (verify_webhook_request dep API_KEY req) = true ->
  get_json req = Ok webhook_data ->
  py_get webhook_data "tweets" (PList []) = Ok (PList tweets) ->
  In bad tweets ->
  well_formed_entry bad = false ->
  exists body w',
    webhook_handler dep API_KEY req w = (Ok (body, 200), w')
    /\ py_getitem body "status" = Ok (PStr "success")
    /\ py_getitem body "message" = Ok (PStr "No tweets to process")
    /\ py_getitem body "tweets_count" = Raise KeyError
    /\ same_files_but_log w w'.
Proof.
  intros Hverify Hjson Hget Hin Hbad.
  assert (Htrue : truthy webhook_data = true).
  { destruct webhook_data as [ | | | | | |p]; try discriminate.
    destruct p as [|item p]; [|reflexivity].
    cbn in Hget. injection Hget as <-. destruct Hin. }
  destruct (process_tweet_data_spec dep webhook_data (note INFO MsgReceivedValid w))
    as (w1 & Hrun).
  unfold entries in Hrun. rewrite Hget in Hrun. cbn [py_iter] in Hrun.
  assert (Hnot : forallb well_formed_entry tweets = false)
    by (apply forallb_false_exists; eauto).
  rewrite Hnot in Hrun.
  pose proof (process_tweet_data_keeps_files dep webhook_data
                (note INFO MsgReceivedValid w)) as Hfiles.
  rewrite Hrun in Hfiles. cbn in Hfiles.
  destruct (webhook_handler_empty_result dep API_KEY req w webhook_data w1
              Hverify Hjson Htrue Hrun)
    as (body & w2 & Hanswer & Hstatus & Hmessage & Hcount & Hfiles2).
  exists body, w2. split; [exact Hanswer|]. split; [exact Hstatus|].
  split; [exact Hmessage|]. split; [exact Hcount|].
  apply same_files_but_log_of_eq. congruence.
Qed.

Lemma webhook_handler_malformed_batch_witness :
  exists body w',
    webhook_handler Standalone (Some "secret123")
      (ex_request (Some "secret123")
         (Ok (ex_payload [ex_tweet_bob; ex_tweet_author_string])))
      ex_world
    = (Ok (body, 200), w')
    /\ py_getitem body "status" = Ok (PStr "success")
    /\ py_getitem body "message" = Ok (PStr "No tweets to process")
    /\ py_getitem body "tweets_count" = Raise KeyError
    /\ same_files_but_log ex_world w'.
Proof.
  apply (webhook_handler_malformed_batch Standalone (Some "secret123")
           (ex_request (Some "secret123")
              (Ok (ex_payload [ex_tweet_bob; ex_tweet_author_string])))
           ex_world (ex_payload [ex_tweet_bob; ex_tweet_author_string])
           [ex_tweet_bob; ex_tweet_author_string] ex_tweet_author_string).
  - reflexivity.
  - reflexivity.
  - reflexivity.
  - simpl. auto.
  - reflexivity.
Defined.

(** X13. A body that is JSON and true but not an object (an array, a
    number, a string, [true]) passes the check for a missing body.  The
    normaliser fails on it with [AttributeError], inside its own [try], and
    the request is answered 200 with [No tweets to process]; the failure
    shows only as an ERROR line in the log, and every file but the log file
    is as before. *)
Theorem webhook_handler_body_not_an_object dep API_KEY req w v :
  fst (verify_webhook_request dep API_KEY req) = true ->
  get_json req = Ok v ->
  truthy v = true ->
  (forall p, v <> PDict p) ->
  exists body w',
    webhook_handler dep API_KEY req w = (Ok (body, 200), w')
    /\ py_getitem body "message" = Ok (PStr "No tweets to process")
    /\ log w' = log w ++ [ (INFO, MsgReceivedValid);
                           (ERROR, MsgErrorProcessing AttributeError);
                           (INFO, MsgNoTweets) ]
    /\ same_files_but_log w w'.
Proof.
  unfold webhook_handler, try_except.
  destruct (verify_webhook_request dep API_KEY req) as [is_valid reason].
  cbn [fst]. intros -> -> Htrue Hnot.
  cbn [negb]. rewrite bind_lift_ok, Htrue. cbn [negb]. rewrite bind_logger.
  destruct v as [ | | | | | |p]; [ | | | | | | destruct (Hnot p eq_refl)];
    destruct dep; cbn; rewrite <- ?app_assoc;
    (eexists; eexists; split; [reflexivity|]; split; [reflexivity|];
     split; [reflexivity|]; apply same_files_but_log_of_eq; reflexivity).
Qed.

Lemma webhook_handler_body_not_an_object_witness :
  exists body w',
    webhook_handler Serverless (Some "secret123")
      (ex_request (Some "secret123") (Ok (PList [ex_tweet_bob]))) ex_world
    = (Ok (body, 200), w')
    /\ py_getitem body "message" = Ok (PStr "No tweets to process")
    /\ log w' = log ex_world ++ [ (INFO, MsgReceivedValid);
                                  (ERROR, MsgErrorProcessing AttributeError);
                                  (INFO, MsgNoTweets) ]
    /\ same_files_but_log ex_world w'.
Proof.
  apply (webhook_handler_body_not_an_object Serverless (Some "secret123")
           (ex_request (Some "secret123") (Ok (PList [ex_tweet_bob]))) ex_world
           (PList [ex_tweet_bob])).
  - reflexivity.
  - reflexivity.
  - reflexivity.
  - discriminate.
Defined.

(** X14. A request that the check turns away leaves no trace but one
    WARNING line in the log: its body is not read, every file but the log
    file is as before, the clock is not read.  The answer is the same
    [{"error": "Unauthorized"}] for all three reasons; the reason goes to the
    log and not to the caller. *)
Theorem webhook_handler_unauthorized_trace dep API_KEY req w :
  fst (verify_webhook_request dep API_KEY req) = false ->
  fst (webhook_handler dep API_KEY req w)
  = Ok (PDict [("error", PStr "Unauthorized")], 401)
  /\ same_files_but_log w (snd (webhook_handler dep API_KEY req w))
  /\ ticks (snd (webhook_handler dep API_KEY req w)) = ticks w
  /\ log (snd (webhook_handler dep API_KEY req w))
     = log w ++ [(WARNING, MsgUnauthorized (snd (verify_webhook_request dep API_KEY req)))].
Proof.
  intros Hverify. rewrite (webhook_handler_unauthorized dep API_KEY req w Hverify).
  split; [reflexivity|].
  split; [apply same_files_but_log_of_eq; reflexivity|].
  split; reflexivity.
Qed.

Lemma webhook_handler_unauthorized_trace_witness :
  fst (webhook_handler Serverless None
         (ex_request (Some "secret123") (Ok (ex_payload [ex_tweet_bob]))) ex_world)
  = Ok (PDict [("error", PStr "Unauthorized")], 401)
  /\ log (snd (webhook_handler Serverless None
                 (ex_request (Some "secret123") (Ok (ex_payload [ex_tweet_bob]))) ex_world))
     = [(WARNING, MsgUnauthorized "API key not configured")].
Proof.
  destruct (webhook_handler_unauthorized_trace Serverless None
              (ex_request (Some "secret123") (Ok (ex_payload [ex_tweet_bob]))) ex_world)
    as (Hanswer & _ & _ & Hlog).
  - reflexivity.
  - split; [exact Hanswer | exact Hlog].
Defined.

(** Where the files of a request can change: nowhere, or in the call of
    [save_tweets_to_file] that [monitor.py] makes, in a world with the files
    and the clock of the start. *)
Lemma webhook_handler_files dep API_KEY req w :
  files (snd (webhook_handler dep API_KEY req w)) = files w
  \/ (dep = Standalone
      /\ exists out w1,
           snd (webhook_handler dep API_KEY req w) = snd (save_tweets_to_file out w1)
           /\ files w1 = files w /\ clock w1 = clock w /\ ticks w1 = ticks w).
Proof.
  destruct (fst (verify_webhook_request dep API_KEY req)) eqn:Hverify.
  2: { left. rewrite (webhook_handler_unauthorized dep API_KEY req w Hverify). reflexivity. }
  destruct (get_json req) as [v|e] eqn:Hjson.
  2: { left. destruct (webhook_handler_get_json_raises dep API_KEY req w e Hverify Hjson)
         as (body & w' & -> & _ & Hfiles & _). exact Hfiles. }
  destruct (truthy v) eqn:Htrue.
  2: { left. rewrite (webhook_handler_no_json dep API_KEY req w v Hverify Hjson Htrue).
       reflexivity. }
  destruct (process_tweet_data_spec dep v (note INFO MsgReceivedValid w)) as (w1 & Hrun).
  pose proof (process_tweet_data_keeps_files dep v (note INFO MsgReceivedValid w)) as Hfiles.
  pose proof (process_tweet_data_keeps_clock dep v (note INFO MsgReceivedValid w)) as Hclock.
  rewrite Hrun in Hfiles, Hclock. cbn in Hfiles, Hclock.
  match type of Hrun with _ = (Ok ?result, _) =>
    remember result as batch eqn:Hbatch end.
  clear Hbatch. destruct batch as [|r out].
  - left.
    destruct (webhook_handler_empty_result dep API_KEY req w v w1 Hverify Hjson Htrue Hrun)
      as (body & w2 & -> & _ & _ & _ & Hfiles2). cbn. congruence.
  - destruct dep.
    + right. split; [reflexivity|]. exists (r :: out), w1.
      rewrite (webhook_handler_standalone_processed _ _ _ _ _ _ Hverify Hjson Htrue Hrun)
        by discriminate.
      pose proof (process_tweet_data_standalone_keeps_ticks v
                    (note INFO MsgReceivedValid w)) as Hticks.
      rewrite Hrun in Hticks. cbn in Hticks. auto.
    + left.
      rewrite (webhook_handler_serverless_processed _ _ _ _ _ _ Hverify Hjson Htrue Hrun)
        by discriminate.
      exact Hfiles.
Qed.

(** X15. In [api/webhook.py] the webhook route writes no file, whatever the
    request, the configured secret and the world are. *)
Theorem webhook_handler_serverless_writes_nothing API_KEY req w :
  files (snd (webhook_handler Serverless API_KEY req w)) = files w.
Proof.
  destruct (webhook_handler_files Serverless API_KEY req w) as [Hsame | [Hdep _]].
  - exact Hsame.
  - discriminate.
Qed.

(** X16. In [monitor.py] the webhook route can change two files only: the
    file of the day on which the request comes in, and the log file; every
    other file is as before, whatever the request is. *)
Theorem webhook_handler_standalone_other_files API_KEY req w filename :
  filename <> tweets_filename (clock w (ticks w)) ->
  filename <> LOG_FILE ->
  files (snd (webhook_handler Standalone API_KEY req w)) !! filename
  = files w !! filename.
Proof.
  intros Hother _.
  destruct (webhook_handler_files Standalone API_KEY req w)
    as [-> | (_ & out & w1 & -> & Hfiles & Hclock & Hticks)]; [reflexivity|].
  rewrite save_tweets_to_file_other_files.
  - rewrite Hfiles. reflexivity.
  - rewrite Hclock, Hticks. exact Hother.
Qed.

Lemma webhook_handler_standalone_other_files_witness :
  files (snd (webhook_handler Standalone (Some "secret123")
                (ex_request (Some "secret123") (Ok (ex_payload [ex_tweet_bob])))
                ex_world_yesterday)) !! "tweets_20231231.json"
  = files ex_world_yesterday !! "tweets_20231231.json".
Proof.
  apply (webhook_handler_standalone_other_files (Some "secret123")
           (ex_request (Some "secret123") (Ok (ex_payload [ex_tweet_bob])))
           ex_world_yesterday "tweets_20231231.json").
  - discriminate.
  - discriminate.
Defined.

(** ** get_stats and health_check *)

Lemma get_stats_missing w :
  files w !! tweets_filename (clock w (ticks w)) = None ->
  get_stats w
  = (Ok (PDict [ ("tweets_today", PInt 0);
                 ("last_updated", PStr (isoformat (clock w (S (ticks w)))));
                 ("message", PStr "No tweets received today") ], 200, []),
     {| files := files w; log := log w; clock := clock w; ticks := S (S (ticks w)) |}).
Proof.
  intros Hmissing.
  unfold get_stats, try_except, bind, datetime_now, os_path_exists, lift, ret.
  cbv beta iota zeta. cbn [files log clock ticks]. rewrite Hmissing.
  rewrite bool_decide_eq_false_2 by (intros [? ?]; discriminate).
  reflexivity.
Qed.

Lemma get_stats_sized w v n :
  files w !! tweets_filename (clock w (ticks w)) = Some (JsonFile v) ->
  py_len v = Ok n ->
  get_stats w
  = (Ok (PDict [ ("tweets_today", PInt (Z.of_nat n));
                 ("last_updated", PStr (isoformat (clock w (S (ticks w)))));
                 ("file", PStr (tweets_filename (clock w (ticks w)))) ], 200, []),
     {| files := files w; log := log w; clock := clock w; ticks := S (S (ticks w)) |}).
Proof.
  intros Hfile Hlen.
  unfold get_stats, try_except, bind, datetime_now, os_path_exists, json_load, lift, ret.
  cbv beta iota zeta. cbn [files log clock ticks]. rewrite Hfile.
  rewrite bool_decide_eq_true_2 by eauto.
  cbn [files log clock ticks]. rewrite Hfile, Hlen. reflexivity.
Qed.

Lemma get_stats_fails w :
  (files w !! tweets_filename (clock w (ticks w)) = Some NotJson
   \/ exists v e, files w !! tweets_filename (clock w (ticks w)) = Some (JsonFile v)
                  /\ py_len v = Raise e) ->
  exists e,
    get_stats w
    = (Ok (PDict [("error", PStr "Error retrieving stats")], 500,
           [(ERROR, MsgErrorStats e)]),
       {| files := files w; log := log w; clock := clock w; ticks := S (ticks w) |}).
Proof.
  unfold get_stats, try_except, bind, datetime_now, os_path_exists, json_load, lift, ret.
  cbv beta iota zeta. cbn [files log clock ticks].
  intros [Hfile | (v & e & Hfile & Hlen)]; rewrite Hfile;
    rewrite bool_decide_eq_true_2 by eauto;
    cbn [files log clock ticks]; rewrite Hfile; [|rewrite Hlen]; eauto.
Qed.

(** X17. [get_stats] counts what the file of the day holds.  Without a file
    it answers 200 with [tweets_today] 0 and the message
    [No tweets received today]; with a file that holds a JSON value with a
    length it answers 200 with that length and the name of the file: the
    number of records of a JSON array, and also the number of keys of an
    object and the number of characters of a string. *)
Theorem get_stats_counts w :
  (files w !! tweets_filename (clock w (ticks w)) = None ->
   stats_response w
   = Ok (PDict [ ("tweets_today", PInt 0);
                 ("last_updated", PStr (isoformat (clock w (S (ticks w)))));
                 ("message", PStr "No tweets received today") ], 200))
  /\ (forall v n,
        files w !! tweets_filename (clock w (ticks w)) = Some (JsonFile v) ->
        py_len v = Ok n ->
        stats_response w
        = Ok (PDict [ ("tweets_today", PInt (Z.of_nat n));
                      ("last_updated", PStr (isoformat (clock w (S (ticks w)))));
                      ("file", PStr (tweets_filename (clock w (ticks w)))) ], 200)).
Proof.
  unfold stats_response. split.
  - intros Hmissing. rewrite (get_stats_missing w Hmissing). reflexivity.
  - intros v n Hfile Hlen. rewrite (get_stats_sized w v n Hfile Hlen). reflexivity.
Qed.

Lemma get_stats_counts_witness :
  stats_response ex_world
  = Ok (PDict [ ("tweets_today", PInt 0);
                ("last_updated", PStr "2024-01-01T12:00:00");
                ("message", PStr "No tweets received today") ], 200)
  /\ stats_response (snd (save_tweets_to_file [ex_record; ex_record2] ex_world))
     = Ok (PDict [ ("tweets_today", PInt 2);
                   ("last_updated", PStr "2024-01-01T12:00:00");
                   ("file", PStr "tweets_20240101.json") ], 200).
Proof.
  split.
  - apply (proj1 (get_stats_counts ex_world)). reflexivity.
  - apply (proj2 (get_stats_counts (snd (save_tweets_to_file [ex_record; ex_record2] ex_world)))
             (PList [ex_record; ex_record2]) 2).
    + reflexivity.
    + reflexivity.
Defined.

(** X18. What [save_tweets_to_file] appends, [get_stats] counts.  After a
    call with the batch [A] on a partition that holds [P], with the write
    going through (the call ends with its [Saved] line), a call of
    [get_stats] on the same day answers 200 with [tweets_today] equal to the
    number of records of [P] plus the number of records of [A]. *)
Theorem get_stats_after_save A w P :
  partition w (strftime_Ymd (clock w (ticks w))) = Some P ->
  strftime_Ymd (clock w (S (ticks w))) = strftime_Ymd (clock w (ticks w)) ->
  last_logged (snd (save_tweets_to_file A w))
  = Some (INFO, MsgSaved (length A) (tweets_filename (clock w (ticks w)))) ->
  exists body,
    stats_response (snd (save_tweets_to_file A w)) = Ok (body, 200)
    /\ py_getitem body "tweets_today" = Ok (PInt (Z.of_nat (length P + length A))).
Proof.
  intros Hpart Hday _.
  rewrite (save_tweets_to_file_readable A w P Hpart).
  cbn [snd]. unfold stats_response.
  rewrite (get_stats_sized _ (PList (P ++ A)) (length (P ++ A))).
  - eexists. split; [reflexivity|]. cbn. rewrite length_app. reflexivity.
  - cbn [files clock ticks]. unfold tweets_filename. rewrite Hday.
    apply lookup_insert_eq.
  - reflexivity.
Qed.

Lemma get_stats_after_save_witness :
  exists body,
    stats_response (snd (save_tweets_to_file [ex_record2]
                           (snd (save_tweets_to_file [ex_record] ex_world))))
    = Ok (body, 200)
    /\ py_getitem body "tweets_today" = Ok (PInt 2).
Proof.
  apply (get_stats_after_save [ex_record2] (snd (save_tweets_to_file [ex_record] ex_world))
           [ex_record]).
  - reflexivity.
  - reflexivity.
  - reflexivity.
Defined.

(** X19. [get_stats] answers 500 exactly when the file of the day exists
    and cannot be counted: it is not JSON, or it holds a JSON value without
    a length ([null], a boolean, a number).  The body is then the fixed
    [{"error": "Error retrieving stats"}]; in every other world the answer
    is 200. *)
Theorem get_stats_error_exactly w :
  (status (stats_response w) = Some 500
   <-> (files w !! tweets_filename (clock w (ticks w)) = Some NotJson
        \/ exists v e, files w !! tweets_filename (clock w (ticks w)) = Some (JsonFile v)
                       /\ py_len v = Raise e))
  /\ (status (stats_response w) = Some 500 ->
      stats_response w = Ok (PDict [("error", PStr "Error retrieving stats")], 500))
  /\ (status (stats_response w) = Some 500 \/ status (stats_response w) = Some 200).
Proof.
  unfold stats_response.
  destruct (files w !! tweets_filename (clock w (ticks w))) as [[v|]|] eqn:Hfile.
  - destruct (py_len v) as [n|e] eqn:Hlen.
    + rewrite (get_stats_sized w v n Hfile Hlen). cbn.
      split; [|split; [discriminate | auto]].
      split; [discriminate|].
      intros [Hno | (v' & e & Hv & Hraise)]; [discriminate|].
      injection Hv as <-. congruence.
    + destruct (get_stats_fails w) as (e' & ->); [right; eauto|]. cbn.
      split; [|split; [auto | auto]].
      split; [intros _; right; eauto | reflexivity].
  - destruct (get_stats_fails w) as (e' & ->); [left; exact Hfile|]. cbn.
    split; [|split; [auto | auto]].
    split; [intros _; left; reflexivity | reflexivity].
  - rewrite (get_stats_missing w Hfile). cbn.
    split; [|split; [discriminate | auto]].
    split; [discriminate|].
    intros [Hno | (v' & e & Hv & _)]; discriminate.
Qed.

(** X20. [get_stats] and [health_check] only look.  After [get_stats]
    every file but the log file, to which its error line goes, is as before,
    so the partition of every day is as before, whatever it answered; after
    [health_check], which logs nothing, every file and the log are as
    before. *)
Theorem stats_and_health_are_read_only dep API_KEY w :
  same_files_but_log w (snd (get_stats w))
  /\ (forall day, partition (snd (get_stats w)) day = partition w day)
  /\ files (snd (health_check dep API_KEY w)) = files w
  /\ log (snd (health_check dep API_KEY w)) = log w.
Proof.
  assert (Hstats : keeps files get_stats).
  { unfold get_stats.
    apply keeps_try_except; [|intros e; apply keeps_ret].
    apply keeps_bind; [apply datetime_now_keeps_files|]. intros now.
    apply keeps_bind; [apply os_path_exists_keeps|]. intros [|].
    - apply keeps_bind; [apply json_load_keeps|]. intros tweets.
      apply keeps_bind; [apply keeps_lift|]. intros n.
      apply keeps_bind; [apply datetime_now_keeps_files|]. intros now2.
      apply keeps_ret.
    - apply keeps_bind; [apply datetime_now_keeps_files|]. intros now2.
      apply keeps_ret. }
  split; [apply same_files_but_log_of_eq, Hstats|].
  split; [intros day; unfold partition; rewrite (Hstats w); reflexivity|].
  destruct dep; split; reflexivity.
Qed.

(** X21. [health_check] asks for no key and answers 200 with [status]
    [healthy] and the reading of the clock.  In [api/webhook.py] the answer
    also tells whether a secret is configured, and it says so exactly when
    the check of the webhook route can let some request through; in
    [monitor.py] the answer has no such field. *)
Theorem health_check_answer dep API_KEY w :
  exists body,
    fst (health_check dep API_KEY w) = Ok (body, 200)
    /\ py_getitem body "status" = Ok (PStr "healthy")
    /\ py_getitem body "timestamp" = Ok (PStr (isoformat (clock w (ticks w))))
    /\ (dep = Standalone -> py_getitem body "api_key_configured" = Raise KeyError)
    /\ (dep = Serverless ->
        exists b,
          py_getitem body "api_key_configured" = Ok (PBool b)
          /\ (b = true
              <-> exists req, fst (verify_webhook_request Serverless API_KEY req) = true)).
Proof.
  destruct dep; cbn; eexists; (split; [reflexivity|]);
    (split; [reflexivity|]); (split; [reflexivity|]); (split; [try discriminate; auto|]);
    try discriminate.
  intros _. exists (api_key_configured API_KEY). split; [reflexivity|].
  unfold api_key_configured. split.
  - intros Hkey. destruct API_KEY as [k|]; [|discriminate].
    exists {| headers := {[ "X-API-Key" := k ]}; get_json := Ok PNone |}.
    apply verify_webhook_request_true_iff. exists k.
    split; [reflexivity|]. split.
    + intros ->. discriminate.
    + cbn. apply lookup_singleton_eq.
  - intros (req & Hverify).
    apply verify_webhook_request_true_iff in Hverify as (k & -> & Hk & _).
    destruct k; [congruence | reflexivity].
Qed.

(** X22. [monitor.py] does not start without a secret, so in a process
    that did start the check lets a request through exactly when its
    [X-API-Key] header holds the configured secret; no case of an empty or
    missing secret is left. *)
Theorem standalone_verifies_exactly_the_secret API_KEY req :
  module_loads Standalone API_KEY = true ->
  (fst (verify_webhook_request Standalone API_KEY req) = true
   <-> headers req !! "X-API-Key" = API_KEY).
Proof.
  intros Hloads.
  destruct (module_loads_standalone API_KEY Hloads) as (k & -> & Hk).
  rewrite verify_webhook_request_true_iff. split.
  - intros (k' & [= <-] & _ & Hheader). exact Hheader.
  - intros Hheader. exists k. auto.
Qed.

Lemma standalone_verifies_exactly_the_secret_witness :
  fst (verify_webhook_request Standalone (Some "secret123")
         (ex_request (Some "secret123") (Ok PNone))) = true
  <-> headers (ex_request (Some "secret123") (Ok PNone)) !! "X-API-Key" = Some "secret123".
Proof.
  apply (standalone_verifies_exactly_the_secret (Some "secret123")
           (ex_request (Some "secret123") (Ok PNone))).
  reflexivity.
Defined.
